(** * The desktop OpenGL context of ebiten: [internal/opengl/context_desktop.go]

    A shallow embedding of the cached-state layer that sits between the
    drawing engine and the OpenGL device, and the properties of its
    specification that can be settled on the code.

    - Go's fixed-width integers are [Z] with the wrap-around of every
      conversion written out ([uint32], [int32]).
    - The device is external: it is a record of answer functions, each one
      receiving the history of device calls issued so far.  Every device call
      is appended to a trace together with a snapshot of the cached state at
      the moment of the call, so that the order of cache writes and device
      calls is observable.
    - Methods of [*Context] are computations in a state-and-panic monad over
      the pair (cached state, trace). *)

From Stdlib Require Import ZArith String Ascii Lia.
From stdpp Require Import base tactics option list gmap strings pretty.

Open Scope Z_scope.

(** ** Fixed-width integers *)

(** Conversion to [uint32]: reduction modulo 2^32. *)
Definition uint32 (z : Z) : Z := z mod 2 ^ 32.

(** Conversion to [int32]: two's complement reading of the low 32 bits. *)
Definition int32 (z : Z) : Z := (z + 2 ^ 31) mod 2 ^ 32 - 2 ^ 31.

(** The handle types [Texture], [Framebuffer], [shader], [program] are all
    [uint32]; [uniformLocation] and [attribLocation] are [int32];
    [programID] is [uint32]. *)
Abbreviation Texture := Z (only parsing).
Abbreviation Framebuffer := Z (only parsing).
Abbreviation shader := Z (only parsing).
Abbreviation program := Z (only parsing).
Abbreviation programID := Z (only parsing).
Abbreviation uniformLocation := Z (only parsing).
Abbreviation attribLocation := Z (only parsing).

(** A [float32] is carried as its 32-bit pattern: the code never computes
    with it, it only hands slices of them to the device. *)
Abbreviation float32 := Z (only parsing).

Definition invalidTexture : Z := 0.
Definition invalidFramebuffer : Z := Z.shiftl 1 32 - 1.

Definition getProgramID (p : program) : programID := p.

(** ** Constants of the [gl] binding (OpenGL 2.1 enumerants) *)

Module gl.
Definition NO_ERROR : Z := 0.
Definition FALSE : Z := 0.
Definition BLEND : Z := 0x0BE2.
Definition UNPACK_ALIGNMENT : Z := 0x0CF5.
Definition TEXTURE_2D : Z := 0x0DE1.
Definition UNSIGNED_BYTE : Z := 0x1401.
Definition RGBA : Z := 0x1908.
Definition NEAREST : Z := 0x2600.
Definition TEXTURE_MAG_FILTER : Z := 0x2800.
Definition TEXTURE_MIN_FILTER : Z := 0x2801.
Definition TEXTURE_WRAP_S : Z := 0x2802.
Definition TEXTURE_WRAP_T : Z := 0x2803.
Definition CLAMP_TO_EDGE : Z := 0x812F.
Definition LINK_STATUS : Z := 0x8B82.
Definition FRAMEBUFFER_BINDING : Z := 0x8CA6.
Definition FRAMEBUFFER_COMPLETE : Z := 0x8CD5.
Definition COLOR_ATTACHMENT0 : Z := 0x8CE0.
Definition FRAMEBUFFER : Z := 0x8D40.
End gl.

(** ** Device calls *)

(** One constructor per entry point of the binding that the modelled methods
    use, with the arguments the method passes. *)
Inductive glCall : Type :=
| GlInit
| GlEnable (cap : Z)
| GlBlendFunc (sfactor dfactor : Z)
| GlGetIntegerv (pname : Z)
| GlGenTextures
| GlPixelStorei (pname param : Z)
| GlBindTexture (target texture : Z)
| GlTexParameteri (target pname param : Z)
| GlTexImage2D (target level internalformat width height border format xtype : Z)
| GlIsTexture (texture : Z)
| GlDeleteTextures (texture : Z)
| GlGenFramebuffersEXT
| GlBindFramebufferEXT (target framebuffer : Z)
| GlFramebufferTexture2DEXT (target attachment textarget texture level : Z)
| GlCheckFramebufferStatusEXT (target : Z)
| GlGetError
| GlIsFramebufferEXT (framebuffer : Z)
| GlDeleteFramebuffersEXT (framebuffer : Z)
| GlCreateProgram
| GlAttachShader (prog sh : Z)
| GlLinkProgram (prog : Z)
| GlGetProgramiv (prog pname : Z)
| GlUseProgram (prog : Z)
| GlIsProgram (prog : Z)
| GlDeleteProgram (prog : Z)
| GlGetUniformLocation (prog : Z) (name : string)
| GlGetAttribLocation (prog : Z) (name : string)
| GlUniform2fv (location count : Z) (value : list float32)
| GlUniform4fv (location count : Z) (value : list float32)
| GlUniformMatrix4fv (location count : Z) (transpose : bool) (value : list float32).

(** The device: what each query answers, given the calls issued before it.
    Any deterministic driver is such a record.  [dev_GetProgramInfoLog] is
    the diagnostic log the device holds for a program; no modelled method
    asks for it. *)
Class Device : Type := {
  dev_Init : list glCall -> option string;
  dev_GetIntegerv : list glCall -> Z -> Z;
  dev_GenTextures : list glCall -> Z;
  dev_IsTexture : list glCall -> Z -> bool;
  dev_GenFramebuffersEXT : list glCall -> Z;
  dev_CheckFramebufferStatusEXT : list glCall -> Z -> Z;
  dev_GetError : list glCall -> Z;
  dev_IsFramebufferEXT : list glCall -> Z -> bool;
  dev_CreateProgram : list glCall -> Z;
  dev_GetProgramiv : list glCall -> Z -> Z -> Z;
  dev_IsProgram : list glCall -> Z -> bool;
  dev_GetUniformLocation : list glCall -> Z -> string -> Z;
  dev_GetAttribLocation : list glCall -> Z -> string -> Z;
  dev_GetProgramInfoLog : list glCall -> Z -> string;
}.

(** ** Package [graphics] *)

(** The composite modes, their blend operations and [convertOperation] are
    declared outside this file; the methods use them through this
    interface only. *)
Class Graphics : Type := {
  CompositeMode : Type;
  CompositeMode_eq_dec :: EqDecision CompositeMode;
  CompositeModeSourceOver : CompositeMode;
  CompositeModeUnknown : CompositeMode;
  Operation : Type;
  Operations : CompositeMode -> Operation * Operation;
  convertOperation : Operation -> Z;
}.

(** ** Errors and formatting *)

(** A Go [error] is its message; [nil] is [None]. *)
Abbreviation error := (option string) (only parsing).

(** [%v] and [%d] of an integer: its decimal numeral. *)
Definition fmt_d (z : Z) : string := pretty z.

(** The terminating NUL that the methods append before [gl.Strs]. *)
Definition NUL : string := String (ascii_of_nat 0) EmptyString.

(** ** The Location Cache *)

(** Modelled from the spec: the Location Cache lives in a file of its own
    that is not part of this development (only its uses are: the field
    [c.locationCache], [newLocationCache()] and the two lookups).  It is
    "keyed by (program handle, parameter name) -> resolved integer
    location", one table for uniforms and one for attributes, and starts
    empty. *)
Record LocationCache : Type := {
  uniformLocationCache : gmap (Z * string) Z;
  attribLocationCache : gmap (Z * string) Z;
}.

Definition newLocationCache : LocationCache :=
  {| uniformLocationCache := ∅; attribLocationCache := ∅ |}.

Definition storeUniform (k : Z * string) (l : Z) (lc : LocationCache) : LocationCache :=
  {| uniformLocationCache := <[k := l]> (uniformLocationCache lc);
     attribLocationCache := attribLocationCache lc |}.

Definition storeAttrib (k : Z * string) (l : Z) (lc : LocationCache) : LocationCache :=
  {| uniformLocationCache := uniformLocationCache lc;
     attribLocationCache := <[k := l]> (attribLocationCache lc) |}.

Section Opengl.

Context `{G : Graphics} {dev : Device}.

(** ** The context and its cached state *)

(** The fields of [Context] that the methods of this file read and write
    (the embedded [context] contributes [init]; its [runOnMainThread] is the
    dispatcher below). *)
Record Context : Type := {
  locationCache : LocationCache;
  screenFramebuffer : Framebuffer;
  lastFramebuffer : Framebuffer;
  lastTexture : Texture;
  lastViewportWidth : Z;
  lastViewportHeight : Z;
  lastCompositeMode : CompositeMode;
  init : bool;
}.

Definition set_locationCache (x : LocationCache) (c : Context) : Context :=
  {| locationCache := x; screenFramebuffer := screenFramebuffer c;
     lastFramebuffer := lastFramebuffer c; lastTexture := lastTexture c;
     lastViewportWidth := lastViewportWidth c;
     lastViewportHeight := lastViewportHeight c;
     lastCompositeMode := lastCompositeMode c; init := init c |}.

Definition set_screenFramebuffer (x : Framebuffer) (c : Context) : Context :=
  {| locationCache := locationCache c; screenFramebuffer := x;
     lastFramebuffer := lastFramebuffer c; lastTexture := lastTexture c;
     lastViewportWidth := lastViewportWidth c;
     lastViewportHeight := lastViewportHeight c;
     lastCompositeMode := lastCompositeMode c; init := init c |}.

Definition set_lastFramebuffer (x : Framebuffer) (c : Context) : Context :=
  {| locationCache := locationCache c; screenFramebuffer := screenFramebuffer c;
     lastFramebuffer := x; lastTexture := lastTexture c;
     lastViewportWidth := lastViewportWidth c;
     lastViewportHeight := lastViewportHeight c;
     lastCompositeMode := lastCompositeMode c; init := init c |}.

Definition set_lastTexture (x : Texture) (c : Context) : Context :=
  {| locationCache := locationCache c; screenFramebuffer := screenFramebuffer c;
     lastFramebuffer := lastFramebuffer c; lastTexture := x;
     lastViewportWidth := lastViewportWidth c;
     lastViewportHeight := lastViewportHeight c;
     lastCompositeMode := lastCompositeMode c; init := init c |}.

Definition set_lastViewportWidth (x : Z) (c : Context) : Context :=
  {| locationCache := locationCache c; screenFramebuffer := screenFramebuffer c;
     lastFramebuffer := lastFramebuffer c; lastTexture := lastTexture c;
     lastViewportWidth := x;
     lastViewportHeight := lastViewportHeight c;
     lastCompositeMode := lastCompositeMode c; init := init c |}.

Definition set_lastViewportHeight (x : Z) (c : Context) : Context :=
  {| locationCache := locationCache c; screenFramebuffer := screenFramebuffer c;
     lastFramebuffer := lastFramebuffer c; lastTexture := lastTexture c;
     lastViewportWidth := lastViewportWidth c;
     lastViewportHeight := x;
     lastCompositeMode := lastCompositeMode c; init := init c |}.

Definition set_lastCompositeMode (x : CompositeMode) (c : Context) : Context :=
  {| locationCache := locationCache c; screenFramebuffer := screenFramebuffer c;
     lastFramebuffer := lastFramebuffer c; lastTexture := lastTexture c;
     lastViewportWidth := lastViewportWidth c;
     lastViewportHeight := lastViewportHeight c;
     lastCompositeMode := x; init := init c |}.

Definition set_init (x : bool) (c : Context) : Context :=
  {| locationCache := locationCache c; screenFramebuffer := screenFramebuffer c;
     lastFramebuffer := lastFramebuffer c; lastTexture := lastTexture c;
     lastViewportWidth := lastViewportWidth c;
     lastViewportHeight := lastViewportHeight c;
     lastCompositeMode := lastCompositeMode c; init := x |}.

(** ** Traces, states and the monad of methods *)

(** A device call, with the cached state as it was when the call was made. *)
Record event : Type := Ev { ev_call : glCall; ev_ctx : Context }.

Record State : Type := St { ctx : Context; trace : list event }.

Definition calls (tr : list event) : list glCall := ev_call <$> tr.

(** A method either returns a value or panics; both leave a state behind. *)
Inductive Result (A : Type) : Type :=
| Ret (a : A) (st : State)
| Panic (msg : string) (st : State).
Arguments Ret {A} a st.
Arguments Panic {A} msg st.

Definition M (A : Type) : Type := State -> Result A.

#[local] Instance M_ret : MRet M := fun A a st => Ret a st.

#[local] Instance M_bind : MBind M := fun A B f m st =>
  match m st with
  | Ret a st' => f a st'
  | Panic msg st' => Panic msg st'
  end.

Definition getCtx : M Context := fun st => Ret (ctx st) st.

Definition modifyCtx (f : Context -> Context) : M unit :=
  fun st => Ret tt (St (f (ctx st)) (trace st)).

Definition panic {A : Type} (msg : string) : M A := fun st => Panic msg st.

(** Issue device call [c]; [answer] is what the device returns for it after
    the calls made so far. *)
Definition glcall {A : Type} (answer : list glCall -> A) (c : glCall) : M A :=
  fun st => Ret (answer (calls (trace st)))
                (St (ctx st) (trace st ++ [Ev c (ctx st)])).

(** [for _, x := range l { body(x) }] *)
Fixpoint forRange {A : Type} (l : list A) (body : A -> M unit) : M unit :=
  match l with
  | [] => mret tt
  | x :: l' => body x;; forRange l' body
  end.

(** ** The binding: typed device calls *)

(** Each wrapper issues one call and converts the device's answer to the Go
    type of the binding's result. *)
Definition gl_Init : M error := glcall dev_Init GlInit.
Definition gl_Enable (cap : Z) : M unit := glcall (fun _ => tt) (GlEnable cap).
Definition gl_BlendFunc (s d : Z) : M unit := glcall (fun _ => tt) (GlBlendFunc s d).
Definition gl_GetIntegerv (pname : Z) : M Z :=
  glcall (fun h => int32 (dev_GetIntegerv h pname)) (GlGetIntegerv pname).
Definition gl_GenTextures : M Z :=
  glcall (fun h => uint32 (dev_GenTextures h)) GlGenTextures.
Definition gl_PixelStorei (pname param : Z) : M unit :=
  glcall (fun _ => tt) (GlPixelStorei pname param).
Definition gl_BindTexture (target t : Z) : M unit :=
  glcall (fun _ => tt) (GlBindTexture target t).
Definition gl_TexParameteri (target pname param : Z) : M unit :=
  glcall (fun _ => tt) (GlTexParameteri target pname param).
Definition gl_TexImage2D (target level ifmt w h border fmt ty : Z) : M unit :=
  glcall (fun _ => tt) (GlTexImage2D target level ifmt w h border fmt ty).
Definition gl_IsTexture (t : Z) : M bool :=
  glcall (fun h => dev_IsTexture h t) (GlIsTexture t).
Definition gl_DeleteTextures (t : Z) : M unit :=
  glcall (fun _ => tt) (GlDeleteTextures t).
Definition gl_GenFramebuffersEXT : M Z :=
  glcall (fun h => uint32 (dev_GenFramebuffersEXT h)) GlGenFramebuffersEXT.
Definition gl_BindFramebufferEXT (target f : Z) : M unit :=
  glcall (fun _ => tt) (GlBindFramebufferEXT target f).
Definition gl_FramebufferTexture2DEXT (target att textarget t level : Z) : M unit :=
  glcall (fun _ => tt) (GlFramebufferTexture2DEXT target att textarget t level).
Definition gl_CheckFramebufferStatusEXT (target : Z) : M Z :=
  glcall (fun h => uint32 (dev_CheckFramebufferStatusEXT h target))
         (GlCheckFramebufferStatusEXT target).
Definition gl_GetError : M Z := glcall (fun h => uint32 (dev_GetError h)) GlGetError.
Definition gl_IsFramebufferEXT (f : Z) : M bool :=
  glcall (fun h => dev_IsFramebufferEXT h f) (GlIsFramebufferEXT f).
Definition gl_DeleteFramebuffersEXT (f : Z) : M unit :=
  glcall (fun _ => tt) (GlDeleteFramebuffersEXT f).
Definition gl_CreateProgram : M Z :=
  glcall (fun h => uint32 (dev_CreateProgram h)) GlCreateProgram.
Definition gl_AttachShader (p sh : Z) : M unit := glcall (fun _ => tt) (GlAttachShader p sh).
Definition gl_LinkProgram (p : Z) : M unit := glcall (fun _ => tt) (GlLinkProgram p).
Definition gl_GetProgramiv (p pname : Z) : M Z :=
  glcall (fun h => int32 (dev_GetProgramiv h p pname)) (GlGetProgramiv p pname).
Definition gl_IsProgram (p : Z) : M bool :=
  glcall (fun h => dev_IsProgram h p) (GlIsProgram p).
Definition gl_DeleteProgram (p : Z) : M unit := glcall (fun _ => tt) (GlDeleteProgram p).
Definition gl_GetUniformLocation (p : Z) (name : string) : M Z :=
  glcall (fun h => int32 (dev_GetUniformLocation h p name)) (GlGetUniformLocation p name).
Definition gl_GetAttribLocation (p : Z) (name : string) : M Z :=
  glcall (fun h => int32 (dev_GetAttribLocation h p name)) (GlGetAttribLocation p name).
Definition gl_Uniform2fv (l count : Z) (v : list float32) : M unit :=
  glcall (fun _ => tt) (GlUniform2fv l count v).
Definition gl_Uniform4fv (l count : Z) (v : list float32) : M unit :=
  glcall (fun _ => tt) (GlUniform4fv l count v).
Definition gl_UniformMatrix4fv (l count : Z) (tr : bool) (v : list float32) : M unit :=
  glcall (fun _ => tt) (GlUniformMatrix4fv l count tr v).

(** ** The dispatcher *)

(** Modelled from the spec: [runOnMainThread] is a function the platform
    layer supplies at [Init]; per its contract it "executes [the unit of
    work] synchronously" and "returns whatever error the unit of work
    produces".  A closure's writes to captured variables are part of the
    value the unit returns. *)
Definition runOnContextThread {A : Type} (f : M A) : M A := f.

(** ** Cached binds *)

Definition bindTextureImpl (t : Texture) : M unit :=
  runOnContextThread (gl_BindTexture gl.TEXTURE_2D (uint32 t)).

Definition bindFramebufferImpl (f : Framebuffer) : M unit :=
  runOnContextThread (gl_BindFramebufferEXT gl.FRAMEBUFFER (uint32 f)).

(** Modelled from the spec: [BindTexture] and [bindFramebuffer] are declared
    with the [Context] type, outside this file.  They "skip the device call
    entirely when the requested handle already matches the cached one", and
    otherwise bind through the [Impl] method and record the handle. *)
Definition BindTexture (t : Texture) : M unit :=
  c ← getCtx;
  if decide (lastTexture c = t) then mret tt
  else bindTextureImpl t;; modifyCtx (set_lastTexture t).

Definition bindFramebuffer (f : Framebuffer) : M unit :=
  c ← getCtx;
  if decide (lastFramebuffer c = f) then mret tt
  else bindFramebufferImpl f;; modifyCtx (set_lastFramebuffer f).

(** ** Blend mode and reset *)

Definition BlendFunc (mode : CompositeMode) : M unit :=
  runOnContextThread (
    c ← getCtx;
    if decide (lastCompositeMode c = mode) then mret tt
    else
      modifyCtx (set_lastCompositeMode mode);;
      let '(s, d) := Operations mode in
      let s2 := convertOperation s in
      let d2 := convertOperation d in
      gl_BlendFunc (uint32 s2) (uint32 d2)).

Definition reset : M error :=
  err ← runOnContextThread (
    c ← getCtx;
    if init c then mret None
    else
      err ← gl_Init;
      match err with
      | Some e => mret (Some ("opengl: initializing error " +:+ e))
      | None => modifyCtx (set_init true);; mret None
      end);
  match err with
  | Some e => mret (Some e)
  | None =>
      modifyCtx (set_locationCache newLocationCache);;
      modifyCtx (set_lastTexture invalidTexture);;
      modifyCtx (set_lastFramebuffer invalidFramebuffer);;
      modifyCtx (set_lastViewportWidth 0);;
      modifyCtx (set_lastViewportHeight 0);;
      modifyCtx (set_lastCompositeMode CompositeModeUnknown);;
      runOnContextThread (gl_Enable gl.BLEND);;
      BlendFunc CompositeModeSourceOver;;
      runOnContextThread (
        f ← gl_GetIntegerv gl.FRAMEBUFFER_BINDING;
        modifyCtx (set_screenFramebuffer (uint32 f)));;
      mret None
  end.

(** ** Textures *)

(** A closure's captured result variable starts at its zero value and is
    assigned on the success path only.  A conversion between two types of
    the same width and signedness ([Texture(t)] of a [uint32]) changes
    nothing and is not written. *)
Definition NewTexture (width height : Z) : M (Texture * error) :=
  '(texture, err) ← runOnContextThread (
    t ← gl_GenTextures;
    if decide (t <= 0) then mret (0, Some "opengl: creating texture failed")
    else
      gl_PixelStorei gl.UNPACK_ALIGNMENT 4;;
      mret (t, None));
  match err with
  | Some e => mret (0, Some e)
  | None =>
      BindTexture texture;;
      runOnContextThread (
        gl_TexParameteri gl.TEXTURE_2D gl.TEXTURE_MAG_FILTER gl.NEAREST;;
        gl_TexParameteri gl.TEXTURE_2D gl.TEXTURE_MIN_FILTER gl.NEAREST;;
        gl_TexParameteri gl.TEXTURE_2D gl.TEXTURE_WRAP_S gl.CLAMP_TO_EDGE;;
        gl_TexParameteri gl.TEXTURE_2D gl.TEXTURE_WRAP_T gl.CLAMP_TO_EDGE;;
        gl_TexImage2D gl.TEXTURE_2D 0 gl.RGBA (int32 width) (int32 height) 0
                      gl.RGBA gl.UNSIGNED_BYTE);;
      mret (texture, None)
  end.

Definition DeleteTexture (t : Texture) : M unit :=
  runOnContextThread (
    let tt' := uint32 t in
    live ← gl_IsTexture tt';
    if negb live then mret tt
    else
      c ← getCtx;
      (if decide (lastTexture c = t)
       then modifyCtx (set_lastTexture invalidTexture)
       else mret tt);;
      gl_DeleteTextures tt').

(** ** Framebuffers *)

Definition NewFramebuffer (texture : Texture) : M (Framebuffer * error) :=
  '(f, err) ← runOnContextThread (
    f ← gl_GenFramebuffersEXT;
    if decide (f <= 0)
    then mret (f, Some "opengl: creating framebuffer failed: gl.IsFramebuffer returns false")
    else mret (f, None));
  match err with
  | Some e => mret (0, Some e)
  | None =>
      bindFramebuffer f;;
      '(framebuffer, err) ← runOnContextThread (
        gl_FramebufferTexture2DEXT gl.FRAMEBUFFER gl.COLOR_ATTACHMENT0
                                   gl.TEXTURE_2D (uint32 texture) 0;;
        s ← gl_CheckFramebufferStatusEXT gl.FRAMEBUFFER;
        if decide (s ≠ gl.FRAMEBUFFER_COMPLETE) then
          if decide (s ≠ 0) then
            mret (0, Some ("opengl: creating framebuffer failed: " +:+ fmt_d s))
          else
            e ← gl_GetError;
            if decide (e ≠ gl.NO_ERROR) then
              mret (0, Some ("opengl: creating framebuffer failed: (glGetError) "
                             +:+ fmt_d e))
            else
              mret (0, Some "opengl: creating framebuffer failed: unknown error")
        else mret (f, None));
      match err with
      | Some e => mret (0, Some e)
      | None => mret (framebuffer, None)
      end
  end.

Definition DeleteFramebuffer (f : Framebuffer) : M unit :=
  runOnContextThread (
    let ff := uint32 f in
    live ← gl_IsFramebufferEXT ff;
    if negb live then mret tt
    else
      c ← getCtx;
      (if decide (lastFramebuffer c = f)
       then modifyCtx (set_lastFramebuffer invalidFramebuffer);;
            modifyCtx (set_lastViewportWidth 0);;
            modifyCtx (set_lastViewportHeight 0)
       else mret tt);;
      gl_DeleteFramebuffersEXT ff).

(** ** Programs *)

Definition newProgram (shaders : list shader) : M (program * error) :=
  '(pr, err) ← runOnContextThread (
    p ← gl_CreateProgram;
    if decide (p = 0) then mret (0, Some "opengl: glCreateProgram failed")
    else
      forRange shaders (fun sh => gl_AttachShader p (uint32 sh));;
      gl_LinkProgram p;;
      v ← gl_GetProgramiv p gl.LINK_STATUS;
      if decide (v = gl.FALSE) then mret (0, Some "opengl: program error")
      else mret (p, None));
  match err with
  | Some e => mret (0, Some e)
  | None => mret (pr, None)
  end.

Definition deleteProgram (p : program) : M unit :=
  runOnContextThread (
    live ← gl_IsProgram (uint32 p);
    if negb live then mret tt
    else gl_DeleteProgram (uint32 p)).

(** ** Locations *)

Definition getUniformLocationImpl (p : program) (location : string) : M uniformLocation :=
  uniform ← gl_GetUniformLocation (uint32 p) (location +:+ NUL);
  if decide (uniform = -1)
  then panic ("opengl: invalid uniform location: " +:+ location)
  else mret uniform.

Definition getAttribLocationImpl (p : program) (location : string) : M attribLocation :=
  attrib ← gl_GetAttribLocation (uint32 p) (location +:+ NUL);
  if decide (attrib = -1)
  then panic ("opengl: invalid attrib location: " +:+ location)
  else mret attrib.

(** Modelled from the spec: the two lookups of the Location Cache.  "On
    first request for a (program, name) pair, resolves via the device and
    stores the result; subsequent requests for the same pair return the
    stored value without a device round-trip."  Resolution is the [Impl]
    method of this file, which receives the context. *)
Definition GetUniformLocation (p : program) (location : string) : M uniformLocation :=
  c ← getCtx;
  let id := getProgramID p in
  match uniformLocationCache (locationCache c) !! (id, location) with
  | Some l => mret l
  | None =>
      l ← getUniformLocationImpl p location;
      c' ← getCtx;
      modifyCtx (set_locationCache (storeUniform (id, location) l (locationCache c')));;
      mret l
  end.

Definition GetAttribLocation (p : program) (location : string) : M attribLocation :=
  c ← getCtx;
  let id := getProgramID p in
  match attribLocationCache (locationCache c) !! (id, location) with
  | Some l => mret l
  | None =>
      l ← getAttribLocationImpl p location;
      c' ← getCtx;
      modifyCtx (set_locationCache (storeAttrib (id, location) l (locationCache c')));;
      mret l
  end.

Definition uniformFloats (p : program) (location : string) (v : list float32) : M unit :=
  runOnContextThread (
    l0 ← GetUniformLocation p location;
    let l := int32 l0 in
    let n := Z.of_nat (length v) in
    if decide (n = 2) then gl_Uniform2fv l 1 v
    else if decide (n = 4) then gl_Uniform4fv l 1 v
    else if decide (n = 16) then gl_UniformMatrix4fv l 1 false v
    else panic "not reached").

End Opengl.

Arguments Ret {G A} a st.
Arguments Panic {G A} msg st.
Arguments uint32 : simpl never.
Arguments int32 : simpl never.
Arguments fmt_d : simpl never.
Arguments calls : simpl never.

(** ** A concrete instance *)

(** Concrete collaborators on which the methods can be run: an instance of
    package [graphics] with the blend factors this file's [init] names, and
    devices that answer by script. *)
Module Scenario.

Inductive mode : Type := SourceOver | Lighter | Unknown.

Inductive op : Type :=
  zero | one | srcAlpha | dstAlpha | oneMinusSrcAlpha | oneMinusDstAlpha.

#[local] Instance mode_eq_dec : EqDecision mode.
Proof. solve_decision. Defined.

Definition operations (m : mode) : op * op :=
  match m with
  | SourceOver => (one, oneMinusSrcAlpha)
  | Lighter => (one, one)
  | Unknown => (zero, zero)
  end.

(** [gl.ZERO], [gl.ONE], [gl.SRC_ALPHA], [gl.DST_ALPHA],
    [gl.ONE_MINUS_SRC_ALPHA], [gl.ONE_MINUS_DST_ALPHA]. *)
Definition convert (o : op) : Z :=
  match o with
  | zero => 0
  | one => 1
  | srcAlpha => 0x0302
  | dstAlpha => 0x0304
  | oneMinusSrcAlpha => 0x0303
  | oneMinusDstAlpha => 0x0305
  end.

#[local] Instance graphics : Graphics :=
  {| CompositeMode := mode;
     CompositeModeSourceOver := SourceOver;
     CompositeModeUnknown := Unknown;
     Operation := op;
     Operations := operations;
     convertOperation := convert |}.

(** A device that gives the same answers whatever came before: [gen] is
    the handle every generator returns, [live] the answer of the three
    liveness queries, [binding] the bound framebuffer, [status] and [glerr]
    the completeness status and the last error, [link] the link status,
    [loc] every location, [log] every program's diagnostic log. *)
Definition scripted (initErr : option string) (gen : Z) (live : bool)
    (binding status glerr link loc : Z) (log : string) : Device :=
  {| dev_Init := fun _ => initErr;
     dev_GetIntegerv := fun _ _ => binding;
     dev_GenTextures := fun _ => gen;
     dev_IsTexture := fun _ _ => live;
     dev_GenFramebuffersEXT := fun _ => gen;
     dev_CheckFramebufferStatusEXT := fun _ _ => status;
     dev_GetError := fun _ => glerr;
     dev_IsFramebufferEXT := fun _ _ => live;
     dev_CreateProgram := fun _ => gen;
     dev_GetProgramiv := fun _ _ _ => link;
     dev_IsProgram := fun _ _ => live;
     dev_GetUniformLocation := fun _ _ _ => loc;
     dev_GetAttribLocation := fun _ _ _ => loc;
     dev_GetProgramInfoLog := fun _ _ => log |}.

(** Everything succeeds; handles are live; names resolve to location 3. *)
Definition healthy : Device :=
  scripted None 1 true 0 gl.FRAMEBUFFER_COMPLETE 0 1 3 "".

(** No handle is live. *)
Definition dead : Device :=
  scripted None 1 false 0 gl.FRAMEBUFFER_COMPLETE 0 1 3 "".

(** The device library does not initialize. *)
Definition uninitializable : Device :=
  scripted (Some "no context") 1 true 0 gl.FRAMEBUFFER_COMPLETE 0 1 3 "".

(** Generators return the zero handle. *)
Definition exhausted : Device :=
  scripted None 0 true 0 gl.FRAMEBUFFER_COMPLETE 0 1 3 "".

(** Framebuffers are incomplete with status
    [GL_FRAMEBUFFER_INCOMPLETE_ATTACHMENT]. *)
Definition incomplete : Device := scripted None 1 true 0 0x8CD6 0 1 3 "".

(** The completeness check answers 0 and the last error is
    [GL_INVALID_OPERATION]. *)
Definition erroring : Device := scripted None 1 true 0 0 0x0502 1 3 "".

(** The completeness check answers 0 and no error is pending. *)
Definition silent : Device := scripted None 1 true 0 0 0 1 3 "".

(** Linking fails, and the device holds a diagnostic log for it. *)
Definition unlinkable : Device :=
  scripted None 1 true 0 gl.FRAMEBUFFER_COMPLETE 0 0 3
           "error: varying vertex_out_tex_coord not written by vertex shader".

(** No name resolves. *)
Definition nameless : Device :=
  scripted None 1 true 0 gl.FRAMEBUFFER_COMPLETE 0 1 (-1) "".

(** A device that hands out program id 7 again after it was deleted:
    program 7 is live unless its deletion is the last create-or-delete
    call; the uniform [mvp] of program 7 sits at location 3 in the program
    linked first and at location 5 in any program linked after a
    deletion. *)
Fixpoint programLive (h : list glCall) (acc : bool) : bool :=
  match h with
  | [] => acc
  | GlCreateProgram :: h' => programLive h' true
  | GlDeleteProgram _ :: h' => programLive h' false
  | _ :: h' => programLive h' acc
  end.

Definition deletedOnce (h : list glCall) : bool :=
  existsb (fun c => match c with GlDeleteProgram _ => true | _ => false end) h.

Definition reusing : Device :=
  {| dev_Init := fun _ => None;
     dev_GetIntegerv := fun _ _ => 0;
     dev_GenTextures := fun _ => 1;
     dev_IsTexture := fun _ _ => true;
     dev_GenFramebuffersEXT := fun _ => 1;
     dev_CheckFramebufferStatusEXT := fun _ _ => gl.FRAMEBUFFER_COMPLETE;
     dev_GetError := fun _ => 0;
     dev_IsFramebufferEXT := fun _ _ => true;
     dev_CreateProgram := fun _ => 7;
     dev_GetProgramiv := fun _ _ _ => 1;
     dev_IsProgram := fun h p => bool_decide (p = 7) && programLive h false;
     dev_GetUniformLocation := fun h _ _ => if deletedOnce h then 5 else 3;
     dev_GetAttribLocation := fun _ _ _ => 0;
     dev_GetProgramInfoLog := fun _ _ => "" |}.

(** The device library fails to initialize at the first attempt and
    initializes at every later one. *)
Definition attempted (h : list glCall) : bool :=
  existsb (fun c => match c with GlInit => true | _ => false end) h.

Definition flaky : Device :=
  {| dev_Init := fun h => if attempted h then None else Some "no context"%string;
     dev_GetIntegerv := fun _ _ => 0;
     dev_GenTextures := fun _ => 1;
     dev_IsTexture := fun _ _ => true;
     dev_GenFramebuffersEXT := fun _ => 1;
     dev_CheckFramebufferStatusEXT := fun _ _ => gl.FRAMEBUFFER_COMPLETE;
     dev_GetError := fun _ => 0;
     dev_IsFramebufferEXT := fun _ _ => true;
     dev_CreateProgram := fun _ => 1;
     dev_GetProgramiv := fun _ _ _ => 1;
     dev_IsProgram := fun _ _ => true;
     dev_GetUniformLocation := fun _ _ _ => 3;
     dev_GetAttribLocation := fun _ _ _ => 3;
     dev_GetProgramInfoLog := fun _ _ => EmptyString |}.

(** A context before its first [reset]: the init flag clear, no cached
    location, every cached handle and dimension zero. *)
Definition bare : Context :=
  {| locationCache := newLocationCache;
     screenFramebuffer := 0;
     lastFramebuffer := 0;
     lastTexture := 0;
     lastViewportWidth := 0;
     lastViewportHeight := 0;
     lastCompositeMode := SourceOver;
     init := false |}.

(** A context in the middle of a frame: texture 4 and framebuffer 2 bound,
    a 320x240 viewport, blending with [Lighter]. *)
Definition drawing : Context :=
  {| locationCache := storeUniform (7, "mvp"%string) 3 newLocationCache;
     screenFramebuffer := 0;
     lastFramebuffer := 2;
     lastTexture := 4;
     lastViewportWidth := 320;
     lastViewportHeight := 240;
     lastCompositeMode := Lighter;
     init := true |}.

End Scenario.

(** ** Observations on traces *)

Definition isBlendFunc (c : glCall) : bool :=
  match c with GlBlendFunc _ _ => true | _ => false end.

Definition isInit (c : glCall) : bool :=
  match c with GlInit => true | _ => false end.

(** The device calls that destroy a resource. *)
Definition isDelete (c : glCall) : bool :=
  match c with
  | GlDeleteTextures _ | GlDeleteFramebuffersEXT _ | GlDeleteProgram _ => true
  | _ => false
  end.

(** The state a run leaves behind, whether it returned or panicked. *)
Definition stateOf `{G : Graphics} {A : Type} (r : Result A) : State :=
  match r with
  | Ret _ s => s
  | Panic _ s => s
  end.

(** Whether [part] occurs in [msg]. *)
Definition includes (msg part : string) : bool :=
  match String.index 0 part msg with
  | Some _ => true
  | None => false
  end.

(** How many of the calls of a trace satisfy [P]. *)
Definition countCalls `{G : Graphics} (P : glCall -> bool) (tr : list event) : nat :=
  length (List.filter (fun e => P (ev_call e)) tr).
Arguments countCalls : simpl never.

(** The cached state after the steps of [reset] that write sentinels. *)
Definition sentinels `{G : Graphics} (c : Context) : Context :=
  set_lastCompositeMode CompositeModeUnknown
    (set_lastViewportHeight 0
       (set_lastViewportWidth 0
          (set_lastFramebuffer invalidFramebuffer
             (set_lastTexture invalidTexture
                (set_locationCache newLocationCache c))))).

(** The [glBlendFunc] call for source-over, issued with cached state [c]. *)
Definition sourceOverCall `{G : Graphics} (c : Context) : event :=
  Ev (GlBlendFunc (uint32 (convertOperation (Operations CompositeModeSourceOver).1))
                  (uint32 (convertOperation (Operations CompositeModeSourceOver).2))) c.

(** ** Further methods of the context *)

Section OpenglMore.

Context `{G : Graphics} {dev : Device}.

#[local] Existing Instance M_ret.
#[local] Existing Instance M_bind.

Definition gl_UseProgram (p : Z) : M unit := glcall (fun _ => tt) (GlUseProgram p).

Definition IsTexture (t : Texture) : M bool :=
  runOnContextThread (gl_IsTexture (uint32 t)).

Definition BindScreenFramebuffer : M unit :=
  c ← getCtx;
  bindFramebuffer (screenFramebuffer c).

Definition useProgram (p : program) : M unit :=
  runOnContextThread (gl_UseProgram (uint32 p)).

(** ** Sequences of calls into the context *)

(** The operations of the context that a caller can issue one after the
    other, with their arguments; [BindTexture] and [bindFramebuffer] are the
    cached binds modelled above. *)
Inductive apiCall : Type :=
| CallReset
| CallBlendFunc (mode : CompositeMode)
| CallNewTexture (width height : Z)
| CallBindTexture (t : Texture)
| CallDeleteTexture (t : Texture)
| CallIsTexture (t : Texture)
| CallNewFramebuffer (texture : Texture)
| CallBindFramebuffer (f : Framebuffer)
| CallBindScreenFramebuffer
| CallDeleteFramebuffer (f : Framebuffer)
| CallNewProgram (shaders : list shader)
| CallUseProgram (p : program)
| CallDeleteProgram (p : program).

(** One call, its result dropped. *)
Definition perform (a : apiCall) : M unit :=
  match a with
  | CallReset => reset;; mret tt
  | CallBlendFunc mode => BlendFunc mode
  | CallNewTexture width height => NewTexture width height;; mret tt
  | CallBindTexture t => BindTexture t
  | CallDeleteTexture t => DeleteTexture t
  | CallIsTexture t => IsTexture t;; mret tt
  | CallNewFramebuffer texture => NewFramebuffer texture;; mret tt
  | CallBindFramebuffer f => bindFramebuffer f
  | CallBindScreenFramebuffer => BindScreenFramebuffer
  | CallDeleteFramebuffer f => DeleteFramebuffer f
  | CallNewProgram shaders => newProgram shaders;; mret tt
  | CallUseProgram p => useProgram p
  | CallDeleteProgram p => deleteProgram p
  end.

Fixpoint performAll (l : list apiCall) : M unit :=
  match l with
  | [] => mret tt
  | a :: l' => perform a;; performAll l'
  end.

(** The handles a call passes are values of their Go type, [uint32]. *)
Definition isUint32 (z : Z) : Prop := 0 <= z < 2 ^ 32.

Definition wellTyped (a : apiCall) : Prop :=
  match a with
  | CallBindTexture t | CallDeleteTexture t | CallIsTexture t
  | CallNewFramebuffer t => isUint32 t
  | CallBindFramebuffer f | CallDeleteFramebuffer f => isUint32 f
  | CallUseProgram p | CallDeleteProgram p => isUint32 p
  | _ => True
  end.

End OpenglMore.

(** ** What the device has been told *)

(** The blend factors of the last [glBlendFunc] of a history, if any. *)
Definition blendStep (acc : option (Z * Z)) (c : glCall) : option (Z * Z) :=
  match c with
  | GlBlendFunc s d => Some (s, d)
  | _ => acc
  end.

Definition deviceBlend (h : list glCall) : option (Z * Z) := foldl blendStep None h.

(** The texture of the last [glBindTexture] of a history, unless that
    texture has been deleted since. *)
Definition textureStep (acc : option Z) (c : glCall) : option Z :=
  match c with
  | GlBindTexture _ t => Some t
  | GlDeleteTextures t => if decide (acc = Some t) then None else acc
  | _ => acc
  end.

Definition deviceTexture (h : list glCall) : option Z := foldl textureStep None h.

(** The framebuffer of the last [glBindFramebufferEXT] of a history, unless
    that framebuffer has been deleted since. *)
Definition framebufferStep (acc : option Z) (c : glCall) : option Z :=
  match c with
  | GlBindFramebufferEXT _ f => Some f
  | GlDeleteFramebuffersEXT f => if decide (acc = Some f) then None else acc
  | _ => acc
  end.

Definition deviceFramebuffer (h : list glCall) : option Z := foldl framebufferStep None h.

(** The two blend factors a composite mode resolves to. *)
Definition factors `{G : Graphics} (mode : CompositeMode) : Z * Z :=
  (uint32 (convertOperation (Operations mode).1),
   uint32 (convertOperation (Operations mode).2)).

(** The cache agrees with the device: a cached entry other than its sentinel
    is what the device was last told. *)
Definition blendCoherent `{G : Graphics} (st : State) : Prop :=
  lastCompositeMode (ctx st) = CompositeModeUnknown ∨
  deviceBlend (calls (trace st)) = Some (factors (lastCompositeMode (ctx st))).

Definition textureCoherent `{G : Graphics} (st : State) : Prop :=
  isUint32 (lastTexture (ctx st)) ∧
  (lastTexture (ctx st) = invalidTexture ∨
   deviceTexture (calls (trace st)) = Some (lastTexture (ctx st))).

Definition framebufferCoherent `{G : Graphics} (st : State) : Prop :=
  isUint32 (lastFramebuffer (ctx st)) ∧
  (lastFramebuffer (ctx st) = invalidFramebuffer ∨
   deviceFramebuffer (calls (trace st)) = Some (lastFramebuffer (ctx st))).

Definition isReset `{G : Graphics} (a : apiCall) : bool :=
  match a with CallReset => true | _ => false end.

(** * Shaders *)

(** [newShader] and [deleteShader] read and write no field of the context
    and use device calls of their own.  They are modelled over the history
    of device calls alone; [GlOther] is a call issued by another method. *)
Inductive shaderCall : Type :=
| GlOther (c : glCall)
| GlCreateShader (xtype : Z)
| GlShaderSource (sh count : Z) (source : string)
| GlCompileShader (sh : Z)
| GlGetShaderiv (sh pname : Z)
| GlGetShaderInfoLog (sh bufSize : Z)
| GlDeleteShader (sh : Z).

(** The device's answers to the shader calls, after the calls made so far;
    the answer to [glGetShaderInfoLog] is the bytes it writes to the buffer
    it is given. *)
Class ShaderDevice : Type := {
  dev_CreateShader : list shaderCall -> Z;
  dev_GetShaderiv : list shaderCall -> Z -> Z -> Z;
  dev_GetShaderInfoLog : list shaderCall -> Z -> Z -> list Byte.byte;
}.

(** [shaderType] is declared outside this file; [newShader] converts it with
    [uint32(...)] and prints it with [%d], so it is an integer type. *)
Abbreviation shaderType := Z (only parsing).

Module Shaders.

Definition COMPILE_STATUS : Z := 0x8B81.
Definition INFO_LOG_LENGTH : Z := 0x8B84.

(** A method either returns a value or panics; both leave a history. *)
Inductive Outcome (A : Type) : Type :=
| Done (a : A) (h : list shaderCall)
| Aborted (msg : string) (h : list shaderCall).
Arguments Done {A} a h.
Arguments Aborted {A} msg h.

Definition SM (A : Type) : Type := list shaderCall -> Outcome A.

#[export] Instance SM_ret : MRet SM := fun A a h => Done a h.

#[export] Instance SM_bind : MBind SM := fun A B f m h =>
  match m h with
  | Done a h' => f a h'
  | Aborted msg h' => Aborted msg h'
  end.

Definition historyOf {A : Type} (r : Outcome A) : list shaderCall :=
  match r with Done _ h | Aborted _ h => h end.

Definition issue {A : Type} (answer : list shaderCall -> A) (c : shaderCall) : SM A :=
  fun h => Done (answer h) (h ++ [c]).

Section Methods.

Context {sdev : ShaderDevice}.

Definition gl_CreateShader (xtype : Z) : SM Z :=
  issue (fun h => uint32 (dev_CreateShader h)) (GlCreateShader xtype).

Definition gl_ShaderSource (sh count : Z) (source : string) : SM unit :=
  issue (fun _ => tt) (GlShaderSource sh count source).

Definition gl_CompileShader (sh : Z) : SM unit :=
  issue (fun _ => tt) (GlCompileShader sh).

Definition gl_GetShaderiv (sh pname : Z) : SM Z :=
  issue (fun h => int32 (dev_GetShaderiv h sh pname)) (GlGetShaderiv sh pname).

(** Writing [w] to the start of buffer [buf]: the buffer keeps its length. *)
Definition store (w buf : list Byte.byte) : list Byte.byte :=
  take (length buf) (w ++ drop (length w) buf).

Definition gl_GetShaderInfoLog (sh bufSize : Z) (buf : list Byte.byte) : SM (list Byte.byte) :=
  issue (fun h => store (dev_GetShaderInfoLog h sh bufSize) buf)
        (GlGetShaderInfoLog sh bufSize).

Definition gl_DeleteShader (sh : Z) : SM unit :=
  issue (fun _ => tt) (GlDeleteShader sh).

(** [make([]byte, n)]: [n] zero bytes; a run-time panic when [n] is
    negative. *)
Definition make (n : Z) : SM (list Byte.byte) :=
  if decide (n < 0)
  then fun h => Aborted "runtime error: makeslice: len out of range" h
  else mret (replicate (Z.to_nat n) Byte.x00).

Definition runOnContextThread {A : Type} (f : SM A) : SM A := f.

Definition newShader (shaderType : shaderType) (source : string) : SM (shader * error) :=
  '(sh, err) ← runOnContextThread (
    s ← gl_CreateShader (uint32 shaderType);
    if decide (s = 0)
    then mret (0, Some ("opengl: glCreateShader failed: shader type: "
                        +:+ fmt_d shaderType))
    else
      gl_ShaderSource (uint32 s) 1 (source +:+ NUL);;
      gl_CompileShader s;;
      v ← gl_GetShaderiv s COMPILE_STATUS;
      if decide (v = gl.FALSE) then
        v ← gl_GetShaderiv (uint32 s) INFO_LOG_LENGTH;
        log ← (if decide (v ≠ 0)
               then log ← make v; gl_GetShaderInfoLog (uint32 s) v log
               else mret []);
        mret (0, Some ("opengl: shader compile failed: " +:+ string_of_list_byte log))
      else mret (s, None));
  match err with
  | Some e => mret (0, Some e)
  | None => mret (sh, None)
  end.

Definition deleteShader (s : shader) : SM unit :=
  runOnContextThread (gl_DeleteShader (uint32 s)).

End Methods.

(** A device that gives the same answers whatever came before. *)
Definition scripted (gen status length : Z) (log : list Byte.byte) : ShaderDevice :=
  {| dev_CreateShader := fun _ => gen;
     dev_GetShaderiv := fun _ _ pname =>
       if decide (pname = COMPILE_STATUS) then status else length;
     dev_GetShaderInfoLog := fun _ _ _ => log |}.

(** Shaders compile. *)
Definition compiling : ShaderDevice := scripted 7 1 0 [].

(** No shader is created. *)
Definition refusing : ShaderDevice := scripted 0 1 0 [].

(** Compilation fails with the log ["bad"], reported with its terminator. *)
Definition rejecting : ShaderDevice :=
  scripted 7 0 4 [Byte.x62; Byte.x61; Byte.x64; Byte.x00].

(** Compilation fails without a log. *)
Definition mute : ShaderDevice := scripted 7 0 0 [].

(** Compilation fails and the log length is reported as negative. *)
Definition broken : ShaderDevice := scripted 7 0 (-1) [].

End Shaders.

Definition isShaderDelete (c : shaderCall) : bool :=
  match c with GlDeleteShader _ => true | _ => false end.

Definition countShaderCalls (P : shaderCall -> bool) (h : list shaderCall) : nat :=
  length (List.filter P h).

(** * Properties *)

Section Properties.

Context `{G : Graphics} {dev : Device}.

Lemma countCalls_app (P : glCall -> bool) (tr1 tr2 : list event) :
  countCalls P (tr1 ++ tr2) = (countCalls P tr1 + countCalls P tr2)%nat.
Proof. unfold countCalls. by rewrite List.filter_app, length_app. Qed.

Lemma countCalls_nil (P : glCall -> bool) : countCalls P [] = 0%nat.
Proof. reflexivity. Qed.

Lemma countCalls_one (P : glCall -> bool) (c : glCall) (x : Context) :
  countCalls P [Ev c x] = if P c then 1%nat else 0%nat.
Proof. unfold countCalls. cbn. by destruct (P c). Qed.

Lemma countCalls_snoc (P : glCall -> bool) (tr : list event) (c : glCall) (x : Context) :
  countCalls P (tr ++ [Ev c x]) =
  if P c then S (countCalls P tr) else countCalls P tr.
Proof.
  rewrite countCalls_app. unfold countCalls at 2. cbn [List.filter ev_call].
  destruct (P c); cbn [length]; lia.
Qed.

Lemma calls_app (tr1 tr2 : list event) : calls (tr1 ++ tr2) = calls tr1 ++ calls tr2.
Proof. unfold calls. apply fmap_app. Qed.

(** Unfolds the monad so that a method applied to a state computes. *)
Ltac run :=
  unfold runOnContextThread, glcall, getCtx, modifyCtx, panic;
  unfold mbind, M_bind, mret, M_ret; cbn.

(** ** Blend mode *)

(** C2. [BlendFunc m] on a state whose cached composite mode is [m] returns
    the state as it is: no device call, no cache write.  On any other state
    it issues exactly one device call, [glBlendFunc] with the two factors
    [m] resolves to, and the only cache write sets the cached mode to [m].
    Two consecutive calls with the same mode issue at most one
    [glBlendFunc]. *)
Theorem BlendFunc_short_circuit (st : State) (mode : CompositeMode) :
  (lastCompositeMode (ctx st) = mode → BlendFunc mode st = Ret tt st) ∧
  (lastCompositeMode (ctx st) ≠ mode →
     ∃ st', BlendFunc mode st = Ret tt st' ∧
       ctx st' = set_lastCompositeMode mode (ctx st) ∧
       trace st' = trace st ++
         [Ev (GlBlendFunc (uint32 (convertOperation (Operations mode).1))
                          (uint32 (convertOperation (Operations mode).2)))
             (ctx st')] ∧
       countCalls isBlendFunc (trace st') = S (countCalls isBlendFunc (trace st))) ∧
  (∃ st1, BlendFunc mode st = Ret tt st1 ∧ BlendFunc mode st1 = Ret tt st1 ∧
     lastCompositeMode (ctx st1) = mode ∧
     (countCalls isBlendFunc (trace st1) ≤ S (countCalls isBlendFunc (trace st)))%nat).
Proof.
  assert (Hhit : ∀ s : State, lastCompositeMode (ctx s) = mode → BlendFunc mode s = Ret tt s).
  { intros [c tr] Heq. unfold BlendFunc. run. cbn in Heq. by rewrite decide_True. }
  assert (Hmiss : lastCompositeMode (ctx st) ≠ mode →
     ∃ st', BlendFunc mode st = Ret tt st' ∧
       ctx st' = set_lastCompositeMode mode (ctx st) ∧
       trace st' = trace st ++
         [Ev (GlBlendFunc (uint32 (convertOperation (Operations mode).1))
                          (uint32 (convertOperation (Operations mode).2)))
             (ctx st')] ∧
       countCalls isBlendFunc (trace st') = S (countCalls isBlendFunc (trace st))).
  { intros Hne. destruct st as [c tr]. unfold BlendFunc. run. cbn in Hne.
    rewrite decide_False by done. destruct (Operations mode) as [s d]. cbn.
    eexists. split; [reflexivity|]. cbn. repeat split.
    by rewrite countCalls_snoc. }
  split; [apply Hhit|]. split; [apply Hmiss|].
  destruct (decide (lastCompositeMode (ctx st) = mode)) as [Heq|Hne].
  - exists st. rewrite (Hhit st Heq). repeat split; [done|lia].
  - destruct (Hmiss Hne) as (st' & Hrun & Hctx & Htr & Hcnt).
    exists st'. rewrite Hrun. repeat split.
    + apply Hhit. by rewrite Hctx.
    + by rewrite Hctx.
    + lia.
Qed.

(** ** Deletion *)

(** C6. On a handle that the device reports as not live, each of
    [DeleteTexture], [DeleteFramebuffer] and [deleteProgram] returns
    normally, the liveness query is the only device call it issues (so no
    device delete is issued), and the cached state (last bound texture and
    framebuffer, viewport dimensions, composite mode, screen framebuffer,
    and every other field of the context) is left as it was. *)
Theorem delete_dead_handle_noop (st : State) (h : Z) :
  (dev_IsTexture (calls (trace st)) (uint32 h) = false →
     ∃ st', DeleteTexture h st = Ret tt st' ∧ ctx st' = ctx st ∧
       trace st' = trace st ++ [Ev (GlIsTexture (uint32 h)) (ctx st)] ∧
       countCalls isDelete (trace st') = countCalls isDelete (trace st)) ∧
  (dev_IsFramebufferEXT (calls (trace st)) (uint32 h) = false →
     ∃ st', DeleteFramebuffer h st = Ret tt st' ∧ ctx st' = ctx st ∧
       trace st' = trace st ++ [Ev (GlIsFramebufferEXT (uint32 h)) (ctx st)] ∧
       countCalls isDelete (trace st') = countCalls isDelete (trace st)) ∧
  (dev_IsProgram (calls (trace st)) (uint32 h) = false →
     ∃ st', deleteProgram h st = Ret tt st' ∧ ctx st' = ctx st ∧
       trace st' = trace st ++ [Ev (GlIsProgram (uint32 h)) (ctx st)] ∧
       countCalls isDelete (trace st') = countCalls isDelete (trace st)).
Proof.
  destruct st as [c tr].
  repeat split; intros Hdead;
    [unfold DeleteTexture | unfold DeleteFramebuffer | unfold deleteProgram];
    unfold gl_IsTexture, gl_IsFramebufferEXT, gl_IsProgram; run;
    cbn in Hdead; rewrite Hdead; cbn;
    (eexists; split; [reflexivity|]); cbn;
    repeat split; by rewrite countCalls_snoc.
Qed.

(** C5. On a live framebuffer handle [f], [DeleteFramebuffer f] issues the
    liveness query and then the device delete.  When [f] is the cached bound
    framebuffer, the cached framebuffer becomes the invalid sentinel and
    both cached viewport dimensions become 0, and the device delete is
    issued with the cache already in that state; no other field changes.
    When [f] is not the cached bound framebuffer the context is left as it
    was. *)
Theorem DeleteFramebuffer_reconciles_viewport (st : State) (f : Framebuffer) :
  dev_IsFramebufferEXT (calls (trace st)) (uint32 f) = true →
  ∃ c', DeleteFramebuffer f st =
          Ret tt (St c' (trace st ++ [Ev (GlIsFramebufferEXT (uint32 f)) (ctx st);
                                      Ev (GlDeleteFramebuffersEXT (uint32 f)) c'])) ∧
    (lastFramebuffer (ctx st) = f →
       lastFramebuffer c' = invalidFramebuffer ∧
       lastViewportWidth c' = 0 ∧ lastViewportHeight c' = 0 ∧
       lastTexture c' = lastTexture (ctx st) ∧
       lastCompositeMode c' = lastCompositeMode (ctx st) ∧
       screenFramebuffer c' = screenFramebuffer (ctx st) ∧
       locationCache c' = locationCache (ctx st) ∧
       init c' = init (ctx st)) ∧
    (lastFramebuffer (ctx st) ≠ f → c' = ctx st).
Proof.
  destruct st as [c tr]. cbn. intros Hlive.
  unfold DeleteFramebuffer, gl_IsFramebufferEXT, gl_DeleteFramebuffersEXT. run.
  rewrite Hlive. cbn. case_decide; cbn;
    rewrite <- app_assoc; cbn; eexists; (split; [reflexivity|]).
  - split; [intros _; by repeat split | done].
  - split; [done | by intros _].
Qed.

(** C1, as the code has it.  [deleteProgram p] always returns normally; it
    asks the device whether [p] is a program and, exactly when the answer is
    yes, issues the device delete.  It writes nothing to the context: the
    Location Cache after the call is the Location Cache before it, entries
    keyed to [p] included. *)
Theorem deleteProgram_keeps_locationCache (st : State) (p : program) :
  ∃ st', deleteProgram p st = Ret tt st' ∧
    ctx st' = ctx st ∧
    locationCache (ctx st') = locationCache (ctx st) ∧
    trace st' = trace st ++
      Ev (GlIsProgram (uint32 p)) (ctx st) ::
      (if dev_IsProgram (calls (trace st)) (uint32 p)
       then [Ev (GlDeleteProgram (uint32 p)) (ctx st)] else []).
Proof.
  destruct st as [c tr]. unfold deleteProgram, gl_IsProgram, gl_DeleteProgram. run.
  destruct (dev_IsProgram (calls tr) (uint32 p)); cbn;
    eexists; (split; [reflexivity|]); cbn; repeat split.
  by rewrite <- app_assoc.
Qed.

(** ** Reset *)

Lemma set_init_same (c : Context) : init c = true → set_init true c = c.
Proof. destruct c; cbn; by intros ->. Qed.

Lemma set_lastCompositeMode_same (c : Context) (m : CompositeMode) :
  lastCompositeMode c = m → set_lastCompositeMode m c = c.
Proof. destruct c; cbn; by intros ->. Qed.

(** [reset], run along its successful path. *)
Lemma reset_run (st : State) :
  init (ctx st) = true ∨ dev_Init (calls (trace st)) = None →
  let c0 := ctx st in
  let tr0 := if init c0 then trace st else trace st ++ [Ev GlInit c0] in
  let c1 := sentinels (set_init true c0) in
  let c2 := set_lastCompositeMode CompositeModeSourceOver c1 in
  let tr1 := tr0 ++ [Ev (GlEnable gl.BLEND) c1] in
  let tr2 := tr1 ++ (if decide (CompositeModeUnknown = CompositeModeSourceOver)
                     then [] else [sourceOverCall c2]) in
  let f := int32 (dev_GetIntegerv (calls tr2) gl.FRAMEBUFFER_BINDING) in
  reset st = Ret None (St (set_screenFramebuffer (uint32 f) c2)
                          (tr2 ++ [Ev (GlGetIntegerv gl.FRAMEBUFFER_BINDING) c2])).
Proof.
  destruct st as [c tr]. intros Hinit. cbn in Hinit. cbn zeta. cbn [ctx trace].
  unfold sentinels, sourceOverCall.
  unfold reset, BlendFunc, gl_Init, gl_Enable, gl_BlendFunc, gl_GetIntegerv. run.
  destruct (init c) eqn:Hi; cbn.
  - rewrite (set_init_same c Hi).
    case_decide as Hm; cbn.
    + rewrite app_nil_r.
      rewrite (set_lastCompositeMode_same
                 (set_lastCompositeMode CompositeModeUnknown _)
                 CompositeModeSourceOver) by (by cbn).
      reflexivity.
    + by destruct (Operations CompositeModeSourceOver) as [s d].
  - destruct Hinit as [?|Hinit]; [done|]. rewrite Hinit. cbn.
    case_decide as Hm; cbn.
    + rewrite app_nil_r.
      rewrite (set_lastCompositeMode_same
                 (set_lastCompositeMode CompositeModeUnknown _)
                 CompositeModeSourceOver) by (by cbn).
      reflexivity.
    + by destruct (Operations CompositeModeSourceOver) as [s d].
Qed.

(** With the init flag set, [reset] succeeds and issues no [gl.Init]. *)
Lemma reset_initialized (st : State) :
  init (ctx st) = true →
  ∃ st', reset st = Ret None st' ∧
    countCalls isInit (trace st') = countCalls isInit (trace st).
Proof.
  intros Hi. pose proof (reset_run st (or_introl Hi)) as Hrun. cbn zeta in Hrun.
  rewrite Hi in Hrun. eexists. split; [exact Hrun|]. cbn [trace].
  rewrite countCalls_snoc, countCalls_app, countCalls_snoc. cbn.
  unfold sourceOverCall.
  case_decide; rewrite ?countCalls_nil, ?countCalls_one; cbn; lia.
Qed.

(** C3. [reset] first runs the guarded initialization: with the init flag
    set it issues no [gl.Init]; with the flag clear it issues [gl.Init], and
    if that fails it returns the initialization error at once, leaving the
    context as it was, the flag still clear.  Otherwise the flag is set and the remaining steps
    run in this order: the Location Cache is replaced by an empty one and
    the cached texture, framebuffer, viewport and composite mode are set to
    their sentinels (giving [c1]); blending is enabled on the device, with
    the cache already in that state; source-over goes through [BlendFunc],
    which leaves the cached mode at source-over (giving [c2]); the bound
    framebuffer is queried and stored as the screen framebuffer.  The result
    is [nil], and a further [reset] issues no [gl.Init]. *)
Theorem reset_steps (st : State) :
  let c0 := ctx st in
  let tr := trace st in
  (init c0 = false → ∀ e, dev_Init (calls tr) = Some e →
     reset st = Ret (Some ("opengl: initializing error " +:+ e))
                    (St c0 (tr ++ [Ev GlInit c0]))) ∧
  (init c0 = true ∨ dev_Init (calls tr) = None →
     let tr0 := if init c0 then tr else tr ++ [Ev GlInit c0] in
     let c1 := sentinels (set_init true c0) in
     let c2 := set_lastCompositeMode CompositeModeSourceOver c1 in
     let tr1 := tr0 ++ [Ev (GlEnable gl.BLEND) c1] in
     let tr2 := tr1 ++ (if decide (CompositeModeUnknown = CompositeModeSourceOver)
                        then [] else [sourceOverCall c2]) in
     let f := int32 (dev_GetIntegerv (calls tr2) gl.FRAMEBUFFER_BINDING) in
     let st' := St (set_screenFramebuffer (uint32 f) c2)
                   (tr2 ++ [Ev (GlGetIntegerv gl.FRAMEBUFFER_BINDING) c2]) in
     reset st = Ret None st' ∧
     (locationCache c1 = newLocationCache ∧
      lastTexture c1 = invalidTexture ∧
      lastFramebuffer c1 = invalidFramebuffer ∧
      lastViewportWidth c1 = 0 ∧ lastViewportHeight c1 = 0 ∧
      lastCompositeMode c1 = CompositeModeUnknown ∧
      screenFramebuffer c1 = screenFramebuffer c0 ∧ init c1 = true) ∧
     lastCompositeMode (ctx st') = CompositeModeSourceOver ∧
     screenFramebuffer (ctx st') = uint32 f ∧
     init (ctx st') = true ∧
     countCalls isInit (trace st') =
       ((if init c0 then 0 else 1) + countCalls isInit tr)%nat ∧
     ∃ st'', reset st' = Ret None st'' ∧
       countCalls isInit (trace st'') = countCalls isInit (trace st')).
Proof.
  intros c0 tr. split.
  - intros Hi e He. destruct st as [c tr']. subst c0 tr. cbn [ctx trace] in *.
    unfold reset, gl_Init. run. rewrite Hi. cbn. rewrite He. reflexivity.
  - intros Hinit. cbn zeta.
    split; [exact (reset_run st Hinit)|].
    split; [by repeat split|].
    split; [reflexivity|]. split; [reflexivity|]. split; [reflexivity|].
    split.
    + cbn [trace]. rewrite countCalls_snoc, countCalls_app, countCalls_snoc. cbn.
      unfold sourceOverCall.
      destruct (init c0); case_decide;
        rewrite ?countCalls_snoc, ?countCalls_nil, ?countCalls_one; cbn; lia.
    + apply reset_initialized. reflexivity.
Qed.

(** ** Framebuffer creation *)

(** A trace that extends [tr] and is cut at an event issued after [tr] is
    cut inside the extension. *)
Lemma cut_in_extension (tr new pre post : list event) (x : event) :
  tr ++ new = pre ++ x :: post → (length tr ≤ length pre)%nat →
  ∃ m, pre = tr ++ m ∧ new = m ++ x :: post.
Proof.
  intros Heq Hlen. apply List.app_eq_app in Heq as [l [[-> ->]|[-> ->]]].
  - rewrite length_app in Hlen. destruct l; [|cbn in Hlen; lia].
    exists []. by rewrite !app_nil_r.
  - by exists l.
Qed.

(** [NewFramebuffer], run: the value it returns and the state it leaves,
    along each of its paths. *)
Lemma NewFramebuffer_run (st : State) (texture : Texture) :
  let c := ctx st in
  let f := uint32 (dev_GenFramebuffersEXT (calls (trace st))) in
  let tr0 := trace st ++ [Ev GlGenFramebuffersEXT c] in
  let c1 := if decide (lastFramebuffer c = f) then c else set_lastFramebuffer f c in
  let tr1 := if decide (lastFramebuffer c = f) then tr0
             else tr0 ++ [Ev (GlBindFramebufferEXT gl.FRAMEBUFFER (uint32 f)) c] in
  let tr2 := tr1 ++ [Ev (GlFramebufferTexture2DEXT gl.FRAMEBUFFER gl.COLOR_ATTACHMENT0
                           gl.TEXTURE_2D (uint32 texture) 0) c1] in
  let s := uint32 (dev_CheckFramebufferStatusEXT (calls tr2) gl.FRAMEBUFFER) in
  let tr3 := tr2 ++ [Ev (GlCheckFramebufferStatusEXT gl.FRAMEBUFFER) c1] in
  let e := uint32 (dev_GetError (calls tr3)) in
  NewFramebuffer texture st =
    if decide (f <= 0) then
      Ret (0, Some "opengl: creating framebuffer failed: gl.IsFramebuffer returns false")
          (St c tr0)
    else if decide (s = gl.FRAMEBUFFER_COMPLETE) then Ret (f, None) (St c1 tr3)
    else if decide (s ≠ 0) then
      Ret (0, Some ("opengl: creating framebuffer failed: " +:+ fmt_d s)) (St c1 tr3)
    else if decide (e ≠ gl.NO_ERROR) then
      Ret (0, Some ("opengl: creating framebuffer failed: (glGetError) " +:+ fmt_d e))
          (St c1 (tr3 ++ [Ev GlGetError c1]))
    else
      Ret (0, Some "opengl: creating framebuffer failed: unknown error")
          (St c1 (tr3 ++ [Ev GlGetError c1])).
Proof.
  destruct st as [c tr]. cbn zeta. cbn [ctx trace].
  unfold NewFramebuffer, bindFramebuffer, bindFramebufferImpl, gl_GenFramebuffersEXT,
    gl_BindFramebufferEXT, gl_FramebufferTexture2DEXT, gl_CheckFramebufferStatusEXT,
    gl_GetError.
  run. repeat (case_decide; cbn [ctx trace]; try done; try lia).
Qed.


(** C4. Whenever the completeness check issued by [NewFramebuffer] (the
    event that follows [pre] in the trace the call leaves) reports a status
    [s] other than complete, the call returns handle 0, which is not the
    handle the device allocated for the framebuffer, and an error chosen in
    this order: the message with status [s] if [s] is nonzero; otherwise
    the message with the code [e] that the device's last-error query
    answers right after the check, if [e] is nonzero; otherwise the fixed
    unknown-error message. *)
Theorem NewFramebuffer_error_fallback (st st' : State) (texture : Texture)
    (fb : Framebuffer) (err : error) (pre post : list event) (cx : Context) :
  NewFramebuffer texture st = Ret (fb, err) st' →
  trace st' = pre ++ Ev (GlCheckFramebufferStatusEXT gl.FRAMEBUFFER) cx :: post →
  (length (trace st) ≤ length pre)%nat →
  let s := uint32 (dev_CheckFramebufferStatusEXT (calls pre) gl.FRAMEBUFFER) in
  let e := uint32 (dev_GetError
                     (calls pre ++ [GlCheckFramebufferStatusEXT gl.FRAMEBUFFER])) in
  s ≠ gl.FRAMEBUFFER_COMPLETE →
  fb = 0 ∧
  fb ≠ uint32 (dev_GenFramebuffersEXT (calls (trace st))) ∧
  err = Some (if decide (s ≠ 0) then
                "opengl: creating framebuffer failed: " +:+ fmt_d s
              else if decide (e ≠ gl.NO_ERROR) then
                "opengl: creating framebuffer failed: (glGetError) " +:+ fmt_d e
              else "opengl: creating framebuffer failed: unknown error").
Proof.
  intros Hrun Htr Hlen s e Hs.
  enough (Hgoal : ¬ uint32 (dev_GenFramebuffersEXT (calls (trace st))) <= 0 ∧ fb = 0 ∧
    err = Some (if decide (s ≠ 0) then
                  "opengl: creating framebuffer failed: " +:+ fmt_d s
                else if decide (e ≠ gl.NO_ERROR) then
                  "opengl: creating framebuffer failed: (glGetError) " +:+ fmt_d e
                else "opengl: creating framebuffer failed: unknown error")).
  { destruct Hgoal as (Hpos & -> & ->). repeat split. lia. }
  pose proof (NewFramebuffer_run st texture) as Hr. cbn zeta in Hr.
  rewrite Hr in Hrun. clear Hr. destruct st as [c tr]. cbn [ctx trace] in *.
  destruct (decide (uint32 (dev_GenFramebuffersEXT (calls tr)) <= 0)) as [Hz|Hz].
  { simplify_eq. cbn in Htr.
    apply cut_in_extension in Htr as (m & _ & Hm); [|done].
    destruct m as [|? m]; [done|]. by destruct m. }
  set (f := uint32 (dev_GenFramebuffersEXT (calls tr))) in *.
  destruct (decide (lastFramebuffer c = f)) as [Hb|Hb];
    rewrite <- ?app_assoc in Hrun; cbn [app] in Hrun;
    repeat match type of Hrun with
           | context [decide ?P] => destruct (decide P)
           end;
    simplify_eq; cbn [trace] in Htr;
    apply cut_in_extension in Htr as (m & -> & Hm); try done;
    repeat (destruct m as [|? m]; simplify_eq/=);
    subst s e; rewrite ?calls_app in *; unfold calls in *;
    cbn [fmap list_fmap ev_call] in *; rewrite <- ?app_assoc in *;
    cbn [app] in *; try done;
    repeat case_decide; try done.
Qed.


(** C9. [NewTexture] and [NewFramebuffer] always return; whenever the error
    they return is not [nil] the handle they return is 0.  For a texture, 0
    is the invalid sentinel.  For a framebuffer it is not: the sentinel is
    2^32 - 1, and 0 is a handle the code itself works with, since [reset]
    records 0 as the screen framebuffer when that is what the device has
    bound.  So a failed [NewFramebuffer] never returns the sentinel. *)
Theorem creation_failure_returns_zero (st : State) (width height : Z) (texture : Texture) :
  (∃ t err st', NewTexture width height st = Ret (t, err) st' ∧
     (err ≠ None → t = 0 ∧ t = invalidTexture)) ∧
  (∃ f err st', NewFramebuffer texture st = Ret (f, err) st' ∧
     (err ≠ None → f = 0 ∧ f ≠ invalidFramebuffer)) ∧
  invalidFramebuffer = 2 ^ 32 - 1 ∧
  (∃ st1, reset (dev := Scenario.healthy) (St Scenario.bare []) = Ret None st1 ∧
     screenFramebuffer (ctx st1) = 0 ∧
     screenFramebuffer (ctx st1) ≠ invalidFramebuffer).
Proof.
  split; [|split; [|split]].
  - destruct st as [c tr].
    unfold NewTexture, BindTexture, bindTextureImpl, gl_GenTextures, gl_PixelStorei,
      gl_BindTexture, gl_TexParameteri, gl_TexImage2D.
    run. repeat (case_decide; cbn); do 3 eexists; (split; [reflexivity|]); done.
  - pose proof (NewFramebuffer_run st texture) as Hr. cbn zeta in Hr. rewrite Hr.
    repeat case_decide; do 3 eexists; (split; [reflexivity|]); done.
  - reflexivity.
  - eexists. split; [vm_compute; reflexivity|]. by vm_compute.
Qed.

(** ** Programs *)

(** The loop that attaches the shaders issues one call per shader, in
    order, and writes nothing to the context. *)
Lemma forRange_attach (p : Z) (shaders : list shader) (c : Context) (tr : list event) :
  forRange shaders (fun sh => gl_AttachShader p (uint32 sh)) (St c tr) =
  Ret tt (St c (tr ++ ((fun sh => Ev (GlAttachShader p (uint32 sh)) c) <$> shaders))).
Proof.
  revert tr. induction shaders as [|sh shaders IH]; intros tr; cbn [forRange fmap list_fmap].
  - by rewrite app_nil_r.
  - unfold gl_AttachShader at 1. run. rewrite IH. by rewrite <- app_assoc.
Qed.

(** [newProgram], run. *)
Lemma newProgram_run (st : State) (shaders : list shader) :
  let c := ctx st in
  let p := uint32 (dev_CreateProgram (calls (trace st))) in
  let tr0 := trace st ++ [Ev GlCreateProgram c] in
  let tr1 := (tr0 ++ ((fun sh => Ev (GlAttachShader p (uint32 sh)) c) <$> shaders))
             ++ [Ev (GlLinkProgram p) c] in
  let v := int32 (dev_GetProgramiv (calls tr1) p gl.LINK_STATUS) in
  let tr2 := tr1 ++ [Ev (GlGetProgramiv p gl.LINK_STATUS) c] in
  newProgram shaders st =
    if decide (p = 0) then Ret (0, Some "opengl: glCreateProgram failed") (St c tr0)
    else if decide (v = gl.FALSE) then Ret (0, Some "opengl: program error") (St c tr2)
    else Ret (p, None) (St c tr2).
Proof.
  destruct st as [c tr]. cbn zeta. cbn [ctx trace].
  unfold newProgram, gl_CreateProgram. run. case_decide; [done|].
  unfold mbind, M_bind. rewrite forRange_attach.
  unfold gl_LinkProgram, gl_GetProgramiv. run. by repeat case_decide.
Qed.

(** C7, as the code has it.  Whenever the link-status query issued by
    [newProgram] (the last event of the trace the call leaves) reports
    false, the call returns handle 0 and the error whose message is exactly
    "opengl: program error", on every device, whatever diagnostic log the
    device holds for the program.  The device calls of such a run are the
    creation of the program, one attach per shader, the link and the
    link-status query: the log is not asked for. *)
Theorem newProgram_link_error (st st' : State) (shaders : list shader)
    (pr p : program) (err : error) (pre : list event) (cx : Context) :
  newProgram shaders st = Ret (pr, err) st' →
  trace st' = pre ++ [Ev (GlGetProgramiv p gl.LINK_STATUS) cx] →
  int32 (dev_GetProgramiv (calls pre) p gl.LINK_STATUS) = gl.FALSE →
  pr = 0 ∧ err = Some "opengl: program error" ∧
  calls (trace st') =
    calls (trace st) ++ [GlCreateProgram] ++
    ((fun sh => GlAttachShader p (uint32 sh)) <$> shaders) ++
    [GlLinkProgram p; GlGetProgramiv p gl.LINK_STATUS].
Proof.
  intros Hrun Htr Hv.
  pose proof (newProgram_run st shaders) as Hr. cbn zeta in Hr.
  rewrite Hr in Hrun. clear Hr.
  repeat match type of Hrun with
         | context [decide ?P] => destruct (decide P)
         end; simplify_eq; cbn [trace] in Htr;
    apply app_inj_tail in Htr as [<- Hev]; simplify_eq.
  repeat split. cbn [trace]. rewrite !calls_app, <- !app_assoc.
  unfold calls. by rewrite <- list_fmap_compose.
Qed.


(** ** Locations *)

(** C8. [getUniformLocationImpl p s] issues the device lookup of [s] and
    panics exactly when the device answers -1; otherwise it returns the
    device's answer.  A value it returns is never -1, and when the name
    resolves (the answer is not -1) it does return.  The same holds of
    [getAttribLocationImpl]. *)
Theorem location_lookup_fatal (st : State) (p : program) (name : string) :
  let u := int32 (dev_GetUniformLocation (calls (trace st)) (uint32 p) (name +:+ NUL)) in
  let a := int32 (dev_GetAttribLocation (calls (trace st)) (uint32 p) (name +:+ NUL)) in
  let stu := St (ctx st) (trace st ++
               [Ev (GlGetUniformLocation (uint32 p) (name +:+ NUL)) (ctx st)]) in
  let sta := St (ctx st) (trace st ++
               [Ev (GlGetAttribLocation (uint32 p) (name +:+ NUL)) (ctx st)]) in
  (((∃ msg s, getUniformLocationImpl p name st = Panic msg s) ↔ u = -1) ∧
   (u = -1 → getUniformLocationImpl p name st =
               Panic ("opengl: invalid uniform location: " +:+ name) stu) ∧
   (u ≠ -1 → getUniformLocationImpl p name st = Ret u stu) ∧
   (∀ l s, getUniformLocationImpl p name st = Ret l s → l ≠ -1)) ∧
  (((∃ msg s, getAttribLocationImpl p name st = Panic msg s) ↔ a = -1) ∧
   (a = -1 → getAttribLocationImpl p name st =
               Panic ("opengl: invalid attrib location: " +:+ name) sta) ∧
   (a ≠ -1 → getAttribLocationImpl p name st = Ret a sta) ∧
   (∀ l s, getAttribLocationImpl p name st = Ret l s → l ≠ -1)).
Proof.
  destruct st as [c tr]. cbn zeta. cbn [ctx trace].
  split;
    [unfold getUniformLocationImpl, gl_GetUniformLocation
    |unfold getAttribLocationImpl, gl_GetAttribLocation];
    run; case_decide as Hu; (split; [split|split; [|split]]);
    try done; try (intros (? & ? & ?); done); try (by eexists _, _);
    intros; by simplify_eq.
Qed.

(** C10, as the code has it.  [uniformFloats p name v] resolves the location
    of [name] through the Location Cache first.  If that lookup panics, so
    does the call, with the lookup's message.  If it returns location [l],
    the call issues [glUniform2fv], [glUniform4fv] or [glUniformMatrix4fv]
    with [l] and [v] when [v] has 2, 4 or 16 elements, and panics with "not
    reached" for any other length.  In every case a slice of a length other
    than 2, 4 and 16 (the empty slice included) makes the call panic. *)
Theorem uniformFloats_by_length (st : State) (p : program) (name : string)
    (v : list float32) :
  let n := Z.of_nat (length v) in
  (n ≠ 2 → n ≠ 4 → n ≠ 16 → ∃ msg s, uniformFloats p name v st = Panic msg s) ∧
  (∀ l s, GetUniformLocation p name st = Ret l s →
     uniformFloats p name v st =
       if decide (n = 2) then
         Ret tt (St (ctx s) (trace s ++ [Ev (GlUniform2fv (int32 l) 1 v) (ctx s)]))
       else if decide (n = 4) then
         Ret tt (St (ctx s) (trace s ++ [Ev (GlUniform4fv (int32 l) 1 v) (ctx s)]))
       else if decide (n = 16) then
         Ret tt (St (ctx s) (trace s ++
                   [Ev (GlUniformMatrix4fv (int32 l) 1 false v) (ctx s)]))
       else Panic "not reached" s) ∧
  (∀ msg s, GetUniformLocation p name st = Panic msg s →
     uniformFloats p name v st = Panic msg s).
Proof.
  cbn zeta. unfold uniformFloats, runOnContextThread, mbind, M_bind.
  destruct (GetUniformLocation p name st) as [l s|msg s]; repeat split.
  - intros H2 H4 H16. rewrite !decide_False by done. by eexists _, _.
  - intros l' s' ?. simplify_eq.
    unfold gl_Uniform2fv, gl_Uniform4fv, gl_UniformMatrix4fv, glcall, panic.
    by repeat case_decide.
  - done.
  - by eexists _, _.
  - done.
  - intros; by simplify_eq.
Qed.

End Properties.

(** * Further properties *)

Section Further.

Context `{G : Graphics} {dev : Device}.

(** Runs a method symbolically on a state. *)
Ltac exec :=
  unfold runOnContextThread, glcall, getCtx, modifyCtx, panic;
  unfold mbind, M_bind, mret, M_ret; cbn.

(** ** Conversions *)

Lemma uint32_range (z : Z) : isUint32 (uint32 z).
Proof. unfold isUint32, uint32. apply Z.mod_pos_bound. lia. Qed.

Lemma uint32_id (z : Z) : isUint32 z → uint32 z = z.
Proof. unfold isUint32, uint32. intros H. by apply Z.mod_small. Qed.

Lemma uint32_int32 (z : Z) : uint32 (int32 z) = uint32 z.
Proof.
  unfold uint32, int32. rewrite Zminus_mod_idemp_l. f_equal. lia.
Qed.

Lemma int32_range (z : Z) : - 2 ^ 31 <= int32 z < 2 ^ 31.
Proof.
  unfold int32. pose proof (Z.mod_pos_bound (z + 2 ^ 31) (2 ^ 32)). lia.
Qed.

Lemma int32_periodic (z k : Z) : int32 (z + k * 2 ^ 32) = int32 z.
Proof.
  unfold int32. f_equal.
  replace (z + k * 2 ^ 32 + 2 ^ 31) with (z + 2 ^ 31 + k * 2 ^ 32) by lia.
  apply Z_mod_plus_full.
Qed.

(** ** The methods, run *)

Lemma BlendFunc_run (st : State) (mode : CompositeMode) :
  BlendFunc mode st =
    if decide (lastCompositeMode (ctx st) = mode) then Ret tt st
    else Ret tt (St (set_lastCompositeMode mode (ctx st))
                    (trace st ++ [Ev (GlBlendFunc (factors mode).1 (factors mode).2)
                                     (set_lastCompositeMode mode (ctx st))])).
Proof.
  destruct st as [c tr]. unfold BlendFunc, gl_BlendFunc, factors. exec.
  case_decide; [done|]. by destruct (Operations mode).
Qed.

Lemma BindTexture_run (st : State) (t : Texture) :
  BindTexture t st =
    if decide (lastTexture (ctx st) = t) then Ret tt st
    else Ret tt (St (set_lastTexture t (ctx st))
                    (trace st ++ [Ev (GlBindTexture gl.TEXTURE_2D (uint32 t)) (ctx st)])).
Proof.
  destruct st as [c tr]. unfold BindTexture, bindTextureImpl, gl_BindTexture. exec.
  by case_decide.
Qed.

Lemma bindFramebuffer_run (st : State) (f : Framebuffer) :
  bindFramebuffer f st =
    if decide (lastFramebuffer (ctx st) = f) then Ret tt st
    else Ret tt (St (set_lastFramebuffer f (ctx st))
                    (trace st ++ [Ev (GlBindFramebufferEXT gl.FRAMEBUFFER (uint32 f))
                                     (ctx st)])).
Proof.
  destruct st as [c tr].
  unfold bindFramebuffer, bindFramebufferImpl, gl_BindFramebufferEXT. exec.
  by case_decide.
Qed.

Lemma NewTexture_run (st : State) (width height : Z) :
  let c := ctx st in
  let t := uint32 (dev_GenTextures (calls (trace st))) in
  let tr0 := trace st ++ [Ev GlGenTextures c] in
  let tr1 := tr0 ++ [Ev (GlPixelStorei gl.UNPACK_ALIGNMENT 4) c] in
  let c1 := if decide (lastTexture c = t) then c else set_lastTexture t c in
  let tr2 := if decide (lastTexture c = t) then tr1
             else tr1 ++ [Ev (GlBindTexture gl.TEXTURE_2D (uint32 t)) c] in
  NewTexture width height st =
    if decide (t <= 0) then
      Ret (0, Some "opengl: creating texture failed"%string) (St c tr0)
    else
      Ret (t, None)
          (St c1 (tr2 ++
             [Ev (GlTexParameteri gl.TEXTURE_2D gl.TEXTURE_MAG_FILTER gl.NEAREST) c1;
              Ev (GlTexParameteri gl.TEXTURE_2D gl.TEXTURE_MIN_FILTER gl.NEAREST) c1;
              Ev (GlTexParameteri gl.TEXTURE_2D gl.TEXTURE_WRAP_S gl.CLAMP_TO_EDGE) c1;
              Ev (GlTexParameteri gl.TEXTURE_2D gl.TEXTURE_WRAP_T gl.CLAMP_TO_EDGE) c1;
              Ev (GlTexImage2D gl.TEXTURE_2D 0 gl.RGBA (int32 width) (int32 height) 0
                    gl.RGBA gl.UNSIGNED_BYTE) c1])).
Proof.
  destruct st as [c tr]. cbn zeta. cbn [ctx trace].
  unfold NewTexture, BindTexture, bindTextureImpl, gl_GenTextures, gl_PixelStorei,
    gl_BindTexture, gl_TexParameteri, gl_TexImage2D.
  exec. repeat (case_decide; cbn [ctx trace]; try done);
    rewrite <- ?app_assoc; reflexivity.
Qed.

Lemma DeleteTexture_run (st : State) (t : Texture) :
  let c := ctx st in
  let tr0 := trace st ++ [Ev (GlIsTexture (uint32 t)) c] in
  let c1 := if decide (lastTexture c = t) then set_lastTexture invalidTexture c else c in
  DeleteTexture t st =
    if dev_IsTexture (calls (trace st)) (uint32 t)
    then Ret tt (St c1 (tr0 ++ [Ev (GlDeleteTextures (uint32 t)) c1]))
    else Ret tt (St c tr0).
Proof.
  destruct st as [c tr]. cbn zeta. cbn [ctx trace].
  unfold DeleteTexture, gl_IsTexture, gl_DeleteTextures. exec.
  destruct (dev_IsTexture (calls tr) (uint32 t)); cbn; [|done].
  by case_decide.
Qed.

Lemma DeleteFramebuffer_run (st : State) (f : Framebuffer) :
  let c := ctx st in
  let tr0 := trace st ++ [Ev (GlIsFramebufferEXT (uint32 f)) c] in
  let c1 := if decide (lastFramebuffer c = f)
            then set_lastViewportHeight 0
                   (set_lastViewportWidth 0 (set_lastFramebuffer invalidFramebuffer c))
            else c in
  DeleteFramebuffer f st =
    if dev_IsFramebufferEXT (calls (trace st)) (uint32 f)
    then Ret tt (St c1 (tr0 ++ [Ev (GlDeleteFramebuffersEXT (uint32 f)) c1]))
    else Ret tt (St c tr0).
Proof.
  destruct st as [c tr]. cbn zeta. cbn [ctx trace].
  unfold DeleteFramebuffer, gl_IsFramebufferEXT, gl_DeleteFramebuffersEXT. exec.
  destruct (dev_IsFramebufferEXT (calls tr) (uint32 f)); cbn; [|done].
  by case_decide.
Qed.

Lemma deleteProgram_run (st : State) (p : program) :
  let c := ctx st in
  let tr0 := trace st ++ [Ev (GlIsProgram (uint32 p)) c] in
  deleteProgram p st =
    if dev_IsProgram (calls (trace st)) (uint32 p)
    then Ret tt (St c (tr0 ++ [Ev (GlDeleteProgram (uint32 p)) c]))
    else Ret tt (St c tr0).
Proof.
  destruct st as [c tr]. cbn zeta. cbn [ctx trace].
  unfold deleteProgram, gl_IsProgram, gl_DeleteProgram. exec.
  by destruct (dev_IsProgram (calls tr) (uint32 p)).
Qed.

Lemma reset_failed (st : State) (e : string) :
  init (ctx st) = false → dev_Init (calls (trace st)) = Some e →
  reset st = Ret (Some ("opengl: initializing error " +:+ e))
                 (St (ctx st) (trace st ++ [Ev GlInit (ctx st)])).
Proof.
  destruct st as [c tr]. cbn [ctx trace]. intros Hi He.
  unfold reset, gl_Init. exec. rewrite Hi. cbn. by rewrite He.
Qed.

Lemma set_lastTexture_same (c : Context) (t : Texture) :
  lastTexture c = t → set_lastTexture t c = c.
Proof. destruct c; cbn; by intros ->. Qed.

Lemma set_lastFramebuffer_same (c : Context) (f : Framebuffer) :
  lastFramebuffer c = f → set_lastFramebuffer f c = c.
Proof. destruct c; cbn; by intros ->. Qed.

(** ** Textures *)

(** X1. [NewTexture] fails exactly when the device hands out texture 0: it
    then returns handle 0 with the creation error, has issued nothing but
    [glGenTextures] and has not written to the context.  Otherwise it
    returns the device's handle with a nil error; that handle is a nonzero
    [uint32], it is the cached bound texture afterwards, and no other cached
    field has changed. *)
Theorem NewTexture_outcome (st : State) (width height : Z) :
  let t := uint32 (dev_GenTextures (calls (trace st))) in
  (t = 0 →
     NewTexture width height st =
       Ret (0, Some "opengl: creating texture failed"%string)
           (St (ctx st) (trace st ++ [Ev GlGenTextures (ctx st)]))) ∧
  (t ≠ 0 →
     ∃ st', NewTexture width height st = Ret (t, None) st' ∧
       isUint32 t ∧ t ≠ invalidTexture ∧
       ctx st' = set_lastTexture t (ctx st) ∧
       countCalls isDelete (trace st') = countCalls isDelete (trace st)).
Proof.
  cbn zeta. pose proof (NewTexture_run st width height) as Hr. cbn zeta in Hr.
  pose proof (uint32_range (dev_GenTextures (calls (trace st)))) as Hu.
  set (t := uint32 (dev_GenTextures (calls (trace st)))) in *.
  unfold isUint32 in Hu. split; intros Ht; rewrite Hr.
  - case_decide; [reflexivity|lia].
  - case_decide; [lia|]. eexists. split; [reflexivity|].
    split; [exact Hu|]. split; [exact Ht|]. cbn [ctx trace]. split.
    + case_decide as Hc; [by rewrite set_lastTexture_same|done].
    + case_decide; rewrite ?countCalls_app, ?countCalls_one, ?countCalls_nil;
        unfold countCalls; cbn; lia.
Qed.

(** X2. The dimensions reach the device converted to [int32]: two calls
    whose widths and heights differ by multiples of 2^32 behave alike.  A
    successful call ends with the allocation of the storage,
    [glTexImage2D] with the converted dimensions and no pixel data, issued
    while the new texture is the cached bound texture. *)
Theorem NewTexture_dimensions_wrap (st : State) (width height j k : Z) :
  NewTexture (width + j * 2 ^ 32) (height + k * 2 ^ 32) st = NewTexture width height st ∧
  ∀ t st', NewTexture width height st = Ret (t, None) st' →
    ∃ pre cx,
      trace st' = pre ++ [Ev (GlTexImage2D gl.TEXTURE_2D 0 gl.RGBA (int32 width)
                                (int32 height) 0 gl.RGBA gl.UNSIGNED_BYTE) cx] ∧
      lastTexture cx = t ∧
      - 2 ^ 31 <= int32 width < 2 ^ 31 ∧ - 2 ^ 31 <= int32 height < 2 ^ 31.
Proof.
  split.
  - pose proof (NewTexture_run st (width + j * 2 ^ 32) (height + k * 2 ^ 32)) as Hr.
    pose proof (NewTexture_run st width height) as Hr'. cbn zeta in Hr, Hr'.
    rewrite Hr, Hr', !int32_periodic. reflexivity.
  - intros t st' Hrun.
    pose proof (NewTexture_run st width height) as Hr. cbn zeta in Hr.
    rewrite Hr in Hrun. clear Hr.
    case_decide; [done|]. simplify_eq. cbn [trace].
    assert (Hsplit : ∀ (l : list event) a b c d e,
               l ++ [a; b; c; d; e] = (l ++ [a; b; c; d]) ++ [e]).
    { intros. by rewrite <- app_assoc. }
    rewrite Hsplit. eexists _, _. split; [reflexivity|].
    split; [by case_decide|]. split; apply int32_range.
Qed.

(** X3. On a live texture handle [t], [DeleteTexture t] issues the liveness
    query and then the device delete.  When [t] is the cached bound texture
    the cached entry becomes the invalid sentinel, before the device delete;
    otherwise the context is left as it was.  In both cases every other
    cached field keeps its value. *)
Theorem DeleteTexture_invalidates_cache (st : State) (t : Texture) :
  dev_IsTexture (calls (trace st)) (uint32 t) = true →
  ∃ c', DeleteTexture t st =
          Ret tt (St c' (trace st ++ [Ev (GlIsTexture (uint32 t)) (ctx st);
                                      Ev (GlDeleteTextures (uint32 t)) c'])) ∧
    (lastTexture (ctx st) = t → c' = set_lastTexture invalidTexture (ctx st)) ∧
    (lastTexture (ctx st) ≠ t → c' = ctx st) ∧
    lastFramebuffer c' = lastFramebuffer (ctx st) ∧
    lastViewportWidth c' = lastViewportWidth (ctx st) ∧
    lastViewportHeight c' = lastViewportHeight (ctx st) ∧
    lastCompositeMode c' = lastCompositeMode (ctx st) ∧
    screenFramebuffer c' = screenFramebuffer (ctx st) ∧
    locationCache c' = locationCache (ctx st) ∧
    init c' = init (ctx st).
Proof.
  intros Hlive. pose proof (DeleteTexture_run st t) as Hr. cbn zeta in Hr.
  rewrite Hlive in Hr. rewrite Hr. rewrite <- app_assoc. cbn [app].
  eexists. split; [reflexivity|]. case_decide; by repeat split.
Qed.

(** X4. [IsTexture t] returns the device's answer and writes nothing.
    [DeleteTexture t], run in the same state, begins with the same query and
    issues the device delete exactly when [IsTexture t] returns true. *)
Theorem DeleteTexture_deletes_what_IsTexture_reports (st : State) (t : Texture) :
  ∃ b st1, IsTexture t st = Ret b st1 ∧
    ctx st1 = ctx st ∧
    calls (trace st1) = calls (trace st) ++ [GlIsTexture (uint32 t)] ∧
    ∃ st2, DeleteTexture t st = Ret tt st2 ∧
      calls (trace st2) =
        calls (trace st1) ++ (if b then [GlDeleteTextures (uint32 t)] else []).
Proof.
  pose proof (DeleteTexture_run st t) as Hr. cbn zeta in Hr.
  destruct st as [c tr]. cbn [ctx trace] in *.
  exists (dev_IsTexture (calls tr) (uint32 t)). eexists. split.
  { unfold IsTexture, gl_IsTexture. exec. reflexivity. }
  cbn [ctx trace]. split; [done|]. split; [by rewrite calls_app|].
  rewrite Hr. destruct (dev_IsTexture (calls tr) (uint32 t));
    (eexists; split; [reflexivity|]); cbn [trace];
    rewrite ?calls_app, ?app_nil_r; reflexivity.
Qed.

(** ** Framebuffers *)

(** X5. When [NewFramebuffer] returns a nil error, the handle it returns is
    the nonzero [uint32] the device allocated, that framebuffer is the
    cached bound framebuffer and no other cached field has changed; the last
    device call was the completeness check. *)
Theorem NewFramebuffer_success (st st' : State) (texture : Texture) (fb : Framebuffer) :
  NewFramebuffer texture st = Ret (fb, None) st' →
  fb = uint32 (dev_GenFramebuffersEXT (calls (trace st))) ∧
  fb ≠ 0 ∧ isUint32 fb ∧
  ctx st' = set_lastFramebuffer fb (ctx st) ∧
  ∃ pre, trace st' = pre ++ [Ev (GlCheckFramebufferStatusEXT gl.FRAMEBUFFER) (ctx st')] ∧
    uint32 (dev_CheckFramebufferStatusEXT (calls pre) gl.FRAMEBUFFER)
      = gl.FRAMEBUFFER_COMPLETE.
Proof.
  intros Hrun. pose proof (NewFramebuffer_run st texture) as Hr. cbn zeta in Hr.
  rewrite Hr in Hrun. clear Hr.
  pose proof (uint32_range (dev_GenFramebuffersEXT (calls (trace st)))) as Hu.
  unfold isUint32 in Hu.
  repeat match type of Hrun with
         | context [decide ?P] => destruct (decide P)
         end; simplify_eq.
  all: split; [done|]; split; [lia|]; split; [exact Hu|]; cbn [ctx trace]; split.
  all: first [by rewrite set_lastFramebuffer_same | done
             | eexists; split; [reflexivity|]; done].
Qed.

(** X6. [NewFramebuffer] never issues a device delete.  When it fails after
    the device has allocated a framebuffer (a nonzero handle), that
    framebuffer is left allocated and is the cached bound framebuffer, while
    the handle returned is 0. *)
Theorem NewFramebuffer_no_cleanup (st st' : State) (texture : Texture)
    (fb : Framebuffer) (err : error) :
  NewFramebuffer texture st = Ret (fb, err) st' →
  let f := uint32 (dev_GenFramebuffersEXT (calls (trace st))) in
  countCalls isDelete (trace st') = countCalls isDelete (trace st) ∧
  (err ≠ None → f ≠ 0 → fb = 0 ∧ lastFramebuffer (ctx st') = f).
Proof.
  intros Hrun. cbn zeta.
  pose proof (NewFramebuffer_run st texture) as Hr. cbn zeta in Hr.
  rewrite Hr in Hrun. clear Hr.
  pose proof (uint32_range (dev_GenFramebuffersEXT (calls (trace st)))) as Hu.
  unfold isUint32 in Hu.
  repeat match type of Hrun with
         | context [decide ?P] => destruct (decide P)
         end; simplify_eq; cbn [ctx trace];
    (split;
     [repeat case_decide;
      rewrite ?countCalls_snoc; cbn; rewrite ?countCalls_snoc; cbn;
      rewrite ?countCalls_snoc; cbn; reflexivity
     |intros Herr Hf; try done; try lia]).
Qed.

(** ** Programs *)

Lemma countCalls_fmap_false {A : Type} (P : glCall → bool) (f : A → event) (l : list A) :
  (∀ x, P (ev_call (f x)) = false) → countCalls P (f <$> l) = 0%nat.
Proof.
  intros Hf. induction l as [|x l IH]; [done|].
  rewrite fmap_cons. change (f x :: (f <$> l)) with ([f x] ++ (f <$> l)).
  rewrite countCalls_app, IH. destruct (f x) as [c cx] eqn:Hx.
  rewrite countCalls_one. specialize (Hf x). rewrite Hx in Hf. cbn in Hf.
  by rewrite Hf.
Qed.

(** X7. [newProgram] returns a nil error only together with the nonzero
    handle the device created, and a non-nil error only together with
    handle 0.  It never writes to the context and never issues a device
    delete, so a program that fails to link stays on the device.  When the
    device creates no program (handle 0) nothing is attached or linked. *)
Theorem newProgram_outcome (st st' : State) (shaders : list shader)
    (pr : program) (err : error) :
  newProgram shaders st = Ret (pr, err) st' →
  let p := uint32 (dev_CreateProgram (calls (trace st))) in
  (err = None → pr = p ∧ pr ≠ 0) ∧
  (err ≠ None → pr = 0) ∧
  ctx st' = ctx st ∧
  countCalls isDelete (trace st') = countCalls isDelete (trace st) ∧
  (p = 0 → err = Some "opengl: glCreateProgram failed"%string ∧
           trace st' = trace st ++ [Ev GlCreateProgram (ctx st)]).
Proof.
  intros Hrun. cbn zeta.
  pose proof (newProgram_run st shaders) as Hr. cbn zeta in Hr.
  rewrite Hr in Hrun. clear Hr.
  assert (Hattach : ∀ p c,
    countCalls isDelete ((fun sh => Ev (GlAttachShader p (uint32 sh)) c) <$> shaders)
      = 0%nat) by (intros; by apply countCalls_fmap_false).
  repeat match type of Hrun with
         | context [decide ?P] => destruct (decide P)
         end; simplify_eq; cbn [ctx trace];
    repeat split; try done;
    rewrite ?countCalls_snoc, ?countCalls_app, ?Hattach, ?countCalls_one; cbn; lia.
Qed.

(** ** Reset *)

Lemma reset_succeeded (st st' : State) :
  reset st = Ret None st' →
  init (ctx st) = true ∨ dev_Init (calls (trace st)) = None.
Proof.
  intros Hrun. destruct (init (ctx st)) eqn:Hi; [by left|]. right.
  destruct (dev_Init (calls (trace st))) as [e|] eqn:He; [|done].
  by rewrite (reset_failed st e Hi He) in Hrun.
Qed.

(** X8. The screen framebuffer that a successful [reset] records is the
    device's answer to the binding query reduced modulo 2^32: the detour
    through the [int32] variable that receives the answer loses nothing, so
    a binding the device reports as a [uint32] is recorded as it is, also
    when it is 2^31 or more. *)
Theorem reset_records_device_binding (st st' : State) (pre : list event) (cx : Context) :
  reset st = Ret None st' →
  trace st' = pre ++ [Ev (GlGetIntegerv gl.FRAMEBUFFER_BINDING) cx] →
  let b := dev_GetIntegerv (calls pre) gl.FRAMEBUFFER_BINDING in
  screenFramebuffer (ctx st') = uint32 b ∧
  (isUint32 b → screenFramebuffer (ctx st') = b).
Proof.
  intros Hrun Htr. cbn zeta.
  pose proof (reset_run st (reset_succeeded st st' Hrun)) as Hr. cbn zeta in Hr.
  rewrite Hr in Hrun. simplify_eq. cbn [trace] in Htr.
  apply app_inj_tail in Htr as [<- _]. cbn [ctx].
  assert (Hs : ∀ x c, screenFramebuffer (set_screenFramebuffer x c) = x) by done.
  rewrite Hs, uint32_int32. split; [done|]. apply uint32_id.
Qed.

Lemma reset_blend (st st' : State) :
  reset st = Ret None st' →
  lastCompositeMode (ctx st') = CompositeModeSourceOver ∧
  (CompositeModeUnknown ≠ CompositeModeSourceOver →
     deviceBlend (calls (trace st')) = Some (factors CompositeModeSourceOver)).
Proof.
  intros Hrun.
  pose proof (reset_run st (reset_succeeded st st' Hrun)) as Hr. cbn zeta in Hr.
  rewrite Hr in Hrun. simplify_eq.
  split; [done|].
  intros Hne. cbn [trace]. rewrite decide_False by done.
  unfold deviceBlend, sourceOverCall, factors.
  rewrite !calls_app, !foldl_app. reflexivity.
Qed.

(** X9. After a successful [reset] the cached composite mode is source-over
    and, unless source-over is the unknown mode itself, the last
    [glBlendFunc] the device received carries the factors of source-over.
    A [BlendFunc] for source-over right after the [reset] changes nothing
    and issues no device call. *)
Theorem reset_applies_source_over (st st' : State) :
  reset st = Ret None st' →
  lastCompositeMode (ctx st') = CompositeModeSourceOver ∧
  (CompositeModeUnknown ≠ CompositeModeSourceOver →
     deviceBlend (calls (trace st')) = Some (factors CompositeModeSourceOver)) ∧
  BlendFunc CompositeModeSourceOver st' = Ret tt st'.
Proof.
  intros Hrun. destruct (reset_blend st st' Hrun) as [Hm Hb].
  split; [done|]. split; [done|].
  rewrite BlendFunc_run. by rewrite decide_True.
Qed.

End Further.

(** ** Sequences of calls *)

Section Sequences.

Context `{G : Graphics} {dev : Device}.

Lemma BindScreenFramebuffer_run (st : State) :
  BindScreenFramebuffer st = bindFramebuffer (screenFramebuffer (ctx st)) st.
Proof. reflexivity. Qed.

(** Replaces a method applied to a state by what it computes. *)
Ltac by_run :=
  unfold perform; rewrite ?BindScreenFramebuffer_run;
  unfold mbind, M_bind, mret, M_ret;
  match goal with
  | |- context [BlendFunc ?m ?st] => rewrite (BlendFunc_run st m)
  | |- context [NewTexture ?w ?h ?st] =>
      let H := fresh in
      pose proof (NewTexture_run st w h) as H; cbn zeta in H; rewrite H; clear H
  | |- context [BindTexture ?t ?st] => rewrite (BindTexture_run st t)
  | |- context [DeleteTexture ?t ?st] =>
      let H := fresh in
      pose proof (DeleteTexture_run st t) as H; cbn zeta in H; rewrite H; clear H
  | |- context [NewFramebuffer ?t ?st] =>
      let H := fresh in
      pose proof (NewFramebuffer_run st t) as H; cbn zeta in H; rewrite H; clear H
  | |- context [bindFramebuffer ?f ?st] => rewrite (bindFramebuffer_run st f)
  | |- context [DeleteFramebuffer ?f ?st] =>
      let H := fresh in
      pose proof (DeleteFramebuffer_run st f) as H; cbn zeta in H; rewrite H; clear H
  | |- context [newProgram ?l ?st] =>
      let H := fresh in
      pose proof (newProgram_run st l) as H; cbn zeta in H; rewrite H; clear H
  | |- context [deleteProgram ?p ?st] =>
      let H := fresh in
      pose proof (deleteProgram_run st p) as H; cbn zeta in H; rewrite H; clear H
  | |- context [IsTexture ?t ?st] =>
      unfold IsTexture, gl_IsTexture, runOnContextThread, glcall
  | |- context [useProgram ?p ?st] =>
      unfold useProgram, gl_UseProgram, runOnContextThread, glcall
  end.

(** [reset], run along both of its paths. *)
Lemma reset_cases (st : State) :
  (∃ e, init (ctx st) = false ∧ dev_Init (calls (trace st)) = Some e ∧
        reset st = Ret (Some ("opengl: initializing error " +:+ e))
                       (St (ctx st) (trace st ++ [Ev GlInit (ctx st)]))) ∨
  (∃ st', (init (ctx st) = true ∨ dev_Init (calls (trace st)) = None) ∧
          reset st = Ret None st').
Proof.
  destruct (init (ctx st)) eqn:Hi.
  - right. eexists. split; [by left|].
    pose proof (reset_run st (or_introl Hi)) as Hr. cbn zeta in Hr. exact Hr.
  - destruct (dev_Init (calls (trace st))) as [e|] eqn:He.
    + left. exists e. split; [done|]. split; [done|]. by apply reset_failed.
    + right. eexists. split; [by right|].
      pose proof (reset_run st (or_intror He)) as Hr. cbn zeta in Hr. exact Hr.
Qed.

(** No call of the sequence language panics. *)
Lemma perform_returns (a : apiCall) (st : State) :
  perform a st = Ret tt (stateOf (perform a st)).
Proof.
  destruct a; try (by_run; repeat case_decide;
    repeat match goal with |- context [if ?b then _ else _] => destruct b end;
    reflexivity).
  cbn [perform]. unfold mbind, M_bind, mret, M_ret.
  destruct (reset_cases st) as [(e & _ & _ & ->)|(st' & _ & ->)]; reflexivity.
Qed.

Lemma stateOf_reset (st : State) :
  stateOf (perform CallReset st) = stateOf (reset st).
Proof.
  cbn [perform]. unfold mbind, M_bind, mret, M_ret.
  destruct (reset_cases st) as [(e & _ & _ & ->)|(st' & _ & ->)]; reflexivity.
Qed.

Lemma performAll_cons (a : apiCall) (l : list apiCall) (st : State) :
  performAll (a :: l) st = performAll l (stateOf (perform a st)).
Proof.
  cbn [performAll]. unfold mbind, M_bind. by rewrite perform_returns.
Qed.

Lemma performAll_returns (l : list apiCall) (st : State) :
  performAll l st = Ret tt (stateOf (performAll l st)).
Proof.
  revert st. induction l as [|a l IH]; intros st; [done|].
  rewrite performAll_cons. apply IH.
Qed.

(** Case analysis on every test a run depends on. *)
Ltac branches :=
  repeat first
    [ case_decide
    | match goal with
      | |- context [if ?b then _ else _] => destruct b eqn:?
      end ];
  cbn [stateOf ctx trace].

Lemma countCalls_cons (P : glCall → bool) (c : glCall) (x : Context) (l : list event) :
  countCalls P (Ev c x :: l) = ((if P c then 1 else 0) + countCalls P l)%nat.
Proof.
  change (Ev c x :: l) with ([Ev c x] ++ l).
  rewrite countCalls_app, countCalls_one. by destruct (P c).
Qed.

Ltac count :=
  rewrite ?countCalls_app, ?countCalls_cons, ?countCalls_nil,
    ?countCalls_fmap_false by done;
  cbn; try lia.

Lemma perform_keeps_init (a : apiCall) (st : State) :
  init (ctx st) = true →
  init (ctx (stateOf (perform a st))) = true ∧
  countCalls isInit (trace (stateOf (perform a st))) = countCalls isInit (trace st).
Proof.
  intros Hi. destruct a; try (by_run; branches; (split; [by cbn|count])).
  rewrite stateOf_reset.
  pose proof (reset_run st (or_introl Hi)) as Hr. cbn zeta in Hr.
  destruct (reset_initialized st Hi) as (st' & Hrun & Hcnt).
  rewrite Hrun in Hr. rewrite Hrun. cbn [stateOf]. split; [|done].
  by simplify_eq.
Qed.

(** X10. Once the init flag is set, no sequence of calls clears it and no
    sequence of calls issues [gl.Init] again: the device library is
    initialized at most once, however often [reset] is called and whatever
    is called in between. *)
Theorem init_is_permanent (l : list apiCall) (st : State) :
  init (ctx st) = true →
  ∃ st', performAll l st = Ret tt st' ∧
    init (ctx st') = true ∧
    countCalls isInit (trace st') = countCalls isInit (trace st).
Proof.
  intros Hi. exists (stateOf (performAll l st)). split; [apply performAll_returns|].
  revert st Hi. induction l as [|a l IH]; intros st Hi; [done|].
  rewrite performAll_cons.
  destruct (perform_keeps_init a st Hi) as [Hi' Hcnt].
  destruct (IH _ Hi') as [Hi'' Hcnt']. split; [done|]. by rewrite Hcnt', Hcnt.
Qed.

(** X11. Among these calls only [reset] writes the screen framebuffer and
    the Location Cache, and none clears the init flag: a sequence without
    [reset] leaves the three as they were.  In particular deleting the
    framebuffer that is recorded as the screen does not clear the record. *)
Theorem only_reset_rewrites_screen (l : list apiCall) (st : State) :
  forallb (fun a => negb (isReset a)) l = true →
  ∃ st', performAll l st = Ret tt st' ∧
    screenFramebuffer (ctx st') = screenFramebuffer (ctx st) ∧
    locationCache (ctx st') = locationCache (ctx st) ∧
    init (ctx st') = init (ctx st).
Proof.
  intros Hl. exists (stateOf (performAll l st)). split; [apply performAll_returns|].
  revert st. induction l as [|a l IH]; intros st; [done|].
  cbn [forallb] in Hl. apply andb_prop in Hl as [Ha Hl].
  rewrite performAll_cons. destruct (IH Hl (stateOf (perform a st))) as (-> & -> & ->).
  clear IH Hl. destruct a; try done; by_run; branches; by cbn.
Qed.

(** ** The cache agrees with the device *)

Lemma foldl_attach {A : Type} (step : A → glCall → A) (acc : A) (p : Z) (c : Context)
    (shaders : list shader) :
  (∀ a q s, step a (GlAttachShader q s) = a) →
  foldl step acc (calls ((fun sh => Ev (GlAttachShader p (uint32 sh)) c) <$> shaders))
    = acc.
Proof.
  intros Hstep. unfold calls. rewrite <- list_fmap_compose.
  induction shaders as [|sh l IH]; [done|]. cbn. by rewrite Hstep.
Qed.

Lemma calls_cons (c : glCall) (x : Context) (l : list event) :
  calls (Ev c x :: l) = c :: calls l.
Proof. reflexivity. Qed.

Lemma calls_nil : calls [] = [].
Proof. reflexivity. Qed.

Lemma deviceBlend_app (h l : list glCall) :
  deviceBlend (h ++ l) = foldl blendStep (deviceBlend h) l.
Proof. apply foldl_app. Qed.

Lemma deviceTexture_app (h l : list glCall) :
  deviceTexture (h ++ l) = foldl textureStep (deviceTexture h) l.
Proof. apply foldl_app. Qed.

Lemma deviceFramebuffer_app (h l : list glCall) :
  deviceFramebuffer (h ++ l) = foldl framebufferStep (deviceFramebuffer h) l.
Proof. apply foldl_app. Qed.

(** Evaluates what the device was told after an extended trace. *)
Ltac scan :=
  rewrite <- ?app_assoc; rewrite ?calls_app;
  rewrite ?deviceBlend_app, ?deviceTexture_app, ?deviceFramebuffer_app;
  rewrite ?foldl_app; rewrite ?calls_cons, ?calls_nil;
  rewrite ?foldl_attach by done;
  cbn [foldl blendStep textureStep framebufferStep].

Lemma perform_keeps_blend (a : apiCall) (st : State) :
  blendCoherent st → blendCoherent (stateOf (perform a st)).
Proof.
  unfold blendCoherent. intros Hc. destruct a.
  - rewrite stateOf_reset.
    destruct (reset_cases st) as [(e & _ & _ & ->)|(st' & Hok & Hrun)].
    + cbn [stateOf ctx trace]. destruct Hc as [Hc|Hc]; [by left|right].
      scan. exact Hc.
    + rewrite Hrun. cbn [stateOf].
      destruct (reset_blend st st' Hrun) as (Hm & Hb).
      rewrite Hm. destruct (decide (CompositeModeUnknown = CompositeModeSourceOver));
        [by left|right; by apply Hb].
  - by_run. branches; [done|]. right. cbn -[factors]. scan. by destruct (factors mode).
  - by_run. branches; cbn -[factors];
      (destruct Hc as [Hc|Hc]; [by left|right; scan; exact Hc]).
  - by_run. branches; cbn -[factors];
      (destruct Hc as [Hc|Hc]; [by left|right; scan; exact Hc]).
  - by_run. branches; cbn -[factors];
      (destruct Hc as [Hc|Hc]; [by left|right; scan; exact Hc]).
  - by_run. branches; cbn -[factors];
      (destruct Hc as [Hc|Hc]; [by left|right; scan; exact Hc]).
  - by_run. branches; cbn -[factors];
      (destruct Hc as [Hc|Hc]; [by left|right; scan; exact Hc]).
  - by_run. branches; cbn -[factors];
      (destruct Hc as [Hc|Hc]; [by left|right; scan; exact Hc]).
  - by_run. branches; cbn -[factors];
      (destruct Hc as [Hc|Hc]; [by left|right; scan; exact Hc]).
  - by_run. branches; cbn -[factors];
      (destruct Hc as [Hc|Hc]; [by left|right; scan; exact Hc]).
  - by_run. branches; cbn -[factors];
      (destruct Hc as [Hc|Hc]; [by left|right; scan; exact Hc]).
  - by_run. branches; cbn -[factors];
      (destruct Hc as [Hc|Hc]; [by left|right; scan; exact Hc]).
  - by_run. branches; cbn -[factors];
      (destruct Hc as [Hc|Hc]; [by left|right; scan; exact Hc]).
Qed.

Lemma reset_handles (st st' : State) :
  reset st = Ret None st' →
  lastTexture (ctx st') = invalidTexture ∧
  lastFramebuffer (ctx st') = invalidFramebuffer.
Proof.
  intros Hrun.
  pose proof (reset_run st (reset_succeeded st st' Hrun)) as Hr. cbn zeta in Hr.
  rewrite Hr in Hrun. simplify_eq. by split.
Qed.

Lemma uint32_idemp (z : Z) : uint32 (uint32 z) = uint32 z.
Proof. apply uint32_id, uint32_range. Qed.

(** Closes one branch of a run for a coherence invariant. *)
Ltac settle Hr Hc :=
  cbn; rewrite ?uint32_idemp; rewrite ?uint32_id by done;
  (split; [first [exact Hr | apply uint32_range | done]|]);
  first
    [ by left
    | right; scan; rewrite ?decide_True by done; reflexivity
    | destruct Hc as [Hc|Hc];
      [ first [by left | exfalso; unfold invalidTexture, invalidFramebuffer in *; cbn in *; lia]
      | right; scan; rewrite ?decide_False by congruence; first [exact Hc | congruence] ] ].

Lemma perform_keeps_texture (a : apiCall) (st : State) :
  wellTyped a → textureCoherent st → textureCoherent (stateOf (perform a st)).
Proof.
  unfold textureCoherent. intros Hw [Hr Hc]. destruct a; cbn in Hw;
    [|by_run; branches; settle Hr Hc..].
  rewrite stateOf_reset.
  destruct (reset_cases st) as [(e & _ & _ & ->)|(st' & Hok & Hrun)].
  - cbn [stateOf ctx trace]. split; [done|].
    destruct Hc as [Hc|Hc]; [by left|right]. scan. exact Hc.
  - rewrite Hrun. cbn [stateOf]. destruct (reset_handles st st' Hrun) as [-> _].
    split; [done|by left].
Qed.

Lemma perform_keeps_framebuffer (a : apiCall) (st : State) :
  wellTyped a → isUint32 (screenFramebuffer (ctx st)) →
  framebufferCoherent st → framebufferCoherent (stateOf (perform a st)).
Proof.
  unfold framebufferCoherent. intros Hw Hs [Hr Hc]. destruct a; cbn in Hw;
    [|by_run; branches; settle Hr Hc..].
  rewrite stateOf_reset.
  destruct (reset_cases st) as [(e & _ & _ & ->)|(st' & Hok & Hrun)].
  - cbn [stateOf ctx trace]. split; [done|].
    destruct Hc as [Hc|Hc]; [by left|right]. scan. exact Hc.
  - rewrite Hrun. cbn [stateOf]. destruct (reset_handles st st' Hrun) as [_ ->].
    split; [done|by left].
Qed.

Lemma perform_keeps_screen (a : apiCall) (st : State) :
  isUint32 (screenFramebuffer (ctx st)) →
  isUint32 (screenFramebuffer (ctx (stateOf (perform a st)))).
Proof.
  intros Hs. destruct a; [|by_run; branches; by cbn..].
  rewrite stateOf_reset.
  destruct (reset_cases st) as [(e & _ & _ & ->)|(st' & Hok & Hrun)]; [done|].
  rewrite Hrun. pose proof (reset_run st Hok) as Hr. cbn zeta in Hr.
  rewrite Hr in Hrun. simplify_eq. cbn. apply uint32_range.
Qed.

Lemma reset_screen (st st' : State) :
  reset st = Ret None st' → isUint32 (screenFramebuffer (ctx st')).
Proof.
  intros Hrun.
  pose proof (reset_run st (reset_succeeded st st' Hrun)) as Hr. cbn zeta in Hr.
  rewrite Hr in Hrun. simplify_eq. cbn. apply uint32_range.
Qed.

Lemma reset_blendCoherent (st st' : State) :
  reset st = Ret None st' → blendCoherent st'.
Proof.
  intros Hrun. destruct (reset_blend st st' Hrun) as [Hm Hb].
  unfold blendCoherent. rewrite Hm.
  destruct (decide (CompositeModeUnknown = CompositeModeSourceOver));
    [by left|right; by apply Hb].
Qed.

Lemma reset_textureCoherent (st st' : State) :
  reset st = Ret None st' → textureCoherent st'.
Proof.
  intros Hrun. destruct (reset_handles st st' Hrun) as [Ht _].
  unfold textureCoherent. rewrite Ht. split; [done|by left].
Qed.

Lemma reset_framebufferCoherent (st st' : State) :
  reset st = Ret None st' → framebufferCoherent st'.
Proof.
  intros Hrun. destruct (reset_handles st st' Hrun) as [_ Hf].
  unfold framebufferCoherent. rewrite Hf. split; [done|by left].
Qed.

Lemma performAll_keeps_blend (l : list apiCall) (st : State) :
  blendCoherent st → blendCoherent (stateOf (performAll l st)).
Proof.
  revert st. induction l as [|a l IH]; intros st Hc; [done|].
  rewrite performAll_cons. by apply IH, perform_keeps_blend.
Qed.

Lemma performAll_keeps_texture (l : list apiCall) (st : State) :
  Forall wellTyped l → textureCoherent st →
  textureCoherent (stateOf (performAll l st)).
Proof.
  intros Hl. revert st. induction Hl as [|a l Ha Hl IH]; intros st Hc; [done|].
  rewrite performAll_cons. by apply IH, perform_keeps_texture.
Qed.

Lemma performAll_keeps_screen (l : list apiCall) (st : State) :
  isUint32 (screenFramebuffer (ctx st)) →
  isUint32 (screenFramebuffer (ctx (stateOf (performAll l st)))).
Proof.
  revert st. induction l as [|a l IH]; intros st Hs; [done|].
  rewrite performAll_cons. by apply IH, perform_keeps_screen.
Qed.

Lemma performAll_keeps_framebuffer (l : list apiCall) (st : State) :
  Forall wellTyped l → isUint32 (screenFramebuffer (ctx st)) →
  framebufferCoherent st →
  framebufferCoherent (stateOf (performAll l st)).
Proof.
  intros Hl. revert st. induction Hl as [|a l Ha Hl IH]; intros st Hs Hc; [done|].
  rewrite performAll_cons.
  apply IH; [by apply perform_keeps_screen|by apply perform_keeps_framebuffer].
Qed.

(** X12. The blend cache is sound.  From a successful [reset] on, whatever
    calls follow, the cached composite mode is the unknown mode or the last
    [glBlendFunc] the device received carries the factors of the cached
    mode.  So a [BlendFunc] for any mode other than the unknown one leaves
    the device with that mode's factors, whether it issues the device call
    or skips it. *)
Theorem blend_cache_sound (st0 st : State) (l : list apiCall) (mode : CompositeMode) :
  reset st0 = Ret None st →
  mode ≠ CompositeModeUnknown →
  ∃ st' st'', performAll l st = Ret tt st' ∧ blendCoherent st' ∧
    BlendFunc mode st' = Ret tt st'' ∧
    deviceBlend (calls (trace st'')) = Some (factors mode).
Proof.
  intros Hrun Hmode.
  pose proof (performAll_keeps_blend l st (reset_blendCoherent st0 st Hrun)) as Hc.
  exists (stateOf (performAll l st)), (stateOf (BlendFunc mode (stateOf (performAll l st)))).
  split; [apply performAll_returns|]. split; [exact Hc|].
  set (st' := stateOf (performAll l st)) in *.
  pose proof (perform_keeps_blend (CallBlendFunc mode) st' Hc) as Hc'.
  cbn [perform] in Hc'. unfold blendCoherent in Hc'.
  rewrite BlendFunc_run in *.
  case_decide as Hm; cbn [stateOf ctx trace] in *; (split; [reflexivity|]).
  - rewrite Hm in Hc'. by destruct Hc'.
  - by destruct Hc'.
Qed.

(** X13. The texture cache is sound.  From a successful [reset] on, whatever
    calls with [uint32] handles follow, the cached bound texture is a
    [uint32] and is either the invalid sentinel or the texture of the last
    [glBindTexture] the device received, not deleted since.  So a
    [BindTexture] of any handle other than the sentinel leaves that texture
    bound on the device, whether it issues the device call or skips it. *)
Theorem texture_cache_sound (st0 st : State) (l : list apiCall) (t : Texture) :
  reset st0 = Ret None st →
  Forall wellTyped l →
  isUint32 t → t ≠ invalidTexture →
  ∃ st' st'', performAll l st = Ret tt st' ∧ textureCoherent st' ∧
    BindTexture t st' = Ret tt st'' ∧
    deviceTexture (calls (trace st'')) = Some t.
Proof.
  intros Hrun Hl Ht Hne.
  pose proof (performAll_keeps_texture l st Hl (reset_textureCoherent st0 st Hrun)) as Hc.
  exists (stateOf (performAll l st)), (stateOf (BindTexture t (stateOf (performAll l st)))).
  split; [apply performAll_returns|]. split; [exact Hc|].
  set (st' := stateOf (performAll l st)) in *.
  pose proof (perform_keeps_texture (CallBindTexture t) st' Ht Hc) as [_ Hc'].
  cbn [perform] in Hc'.
  rewrite BindTexture_run in *.
  case_decide as Hm; cbn [stateOf ctx trace] in *; (split; [reflexivity|]).
  - rewrite Hm in Hc'. by destruct Hc'.
  - by destruct Hc'.
Qed.

(** X14. The framebuffer cache is sound.  From a successful [reset] on,
    whatever calls with [uint32] handles follow, the cached bound
    framebuffer is a [uint32] and is either the invalid sentinel or the
    framebuffer of the last [glBindFramebufferEXT] the device received, not
    deleted since.  So a [bindFramebuffer] of any handle other than the
    sentinel leaves that framebuffer bound on the device, whether it issues
    the device call or skips it. *)
Theorem framebuffer_cache_sound (st0 st : State) (l : list apiCall) (f : Framebuffer) :
  reset st0 = Ret None st →
  Forall wellTyped l →
  isUint32 f → f ≠ invalidFramebuffer →
  ∃ st' st'', performAll l st = Ret tt st' ∧ framebufferCoherent st' ∧
    bindFramebuffer f st' = Ret tt st'' ∧
    deviceFramebuffer (calls (trace st'')) = Some f.
Proof.
  intros Hrun Hl Hf Hne.
  pose proof (performAll_keeps_framebuffer l st Hl (reset_screen st0 st Hrun)
                (reset_framebufferCoherent st0 st Hrun)) as Hc.
  pose proof (performAll_keeps_screen l st (reset_screen st0 st Hrun)) as Hs.
  exists (stateOf (performAll l st)),
    (stateOf (bindFramebuffer f (stateOf (performAll l st)))).
  split; [apply performAll_returns|]. split; [exact Hc|].
  set (st' := stateOf (performAll l st)) in *.
  pose proof (perform_keeps_framebuffer (CallBindFramebuffer f) st' Hf Hs Hc) as [_ Hc'].
  cbn [perform] in Hc'.
  rewrite bindFramebuffer_run in *.
  case_decide as Hm; cbn [stateOf ctx trace] in *; (split; [reflexivity|]).
  - rewrite Hm in Hc'. by destruct Hc'.
  - by destruct Hc'.
Qed.

(** X15. No call of this file records a viewport: after any sequence of
    calls the cached viewport is the one cached before, or 0 by 0. *)
Theorem viewport_only_cleared (l : list apiCall) (st : State) :
  ∃ st', performAll l st = Ret tt st' ∧
    ((lastViewportWidth (ctx st') = lastViewportWidth (ctx st) ∧
      lastViewportHeight (ctx st') = lastViewportHeight (ctx st)) ∨
     (lastViewportWidth (ctx st') = 0 ∧ lastViewportHeight (ctx st') = 0)).
Proof.
  exists (stateOf (performAll l st)). split; [apply performAll_returns|].
  assert (Hstep : ∀ a s,
    (lastViewportWidth (ctx (stateOf (perform a s))) = lastViewportWidth (ctx s) ∧
     lastViewportHeight (ctx (stateOf (perform a s))) = lastViewportHeight (ctx s)) ∨
    (lastViewportWidth (ctx (stateOf (perform a s))) = 0 ∧
     lastViewportHeight (ctx (stateOf (perform a s))) = 0)).
  { intros a s. destruct a;
      [|by_run; branches; first [by left|by right]..].
    rewrite stateOf_reset.
    destruct (reset_cases s) as [(e & _ & _ & ->)|(s' & Hok & Hrun)]; [by left|].
    rewrite Hrun. pose proof (reset_run s Hok) as Hr. cbn zeta in Hr.
    rewrite Hr in Hrun. simplify_eq. by right. }
  revert st. induction l as [|a l IH]; intros st; [by left|].
  rewrite performAll_cons.
  destruct (IH (stateOf (perform a st))) as [[Hw Hh]|Hz]; [|by right].
  rewrite Hw, Hh. apply Hstep.
Qed.

End Sequences.

(** ** Creation followed by deletion *)

Section RoundTrips.

Context `{G : Graphics} {dev : Device}.

Lemma set_lastTexture_twice (c : Context) (t t' : Texture) :
  set_lastTexture t' (set_lastTexture t c) = set_lastTexture t' c.
Proof. reflexivity. Qed.

Lemma set_lastFramebuffer_twice (c : Context) (f f' : Framebuffer) :
  set_lastFramebuffer f' (set_lastFramebuffer f c) = set_lastFramebuffer f' c.
Proof. reflexivity. Qed.

(** X16. Creating a texture and deleting it again, while the device reports
    it live, does not restore the texture that was bound before: the cached
    bound texture ends as the invalid sentinel, and every other cached field
    is as it was before the creation.  The deletion adds the liveness query
    and the device delete of the new handle to the history. *)
Theorem NewTexture_then_DeleteTexture (st st1 : State) (width height : Z) (t : Texture) :
  NewTexture width height st = Ret (t, None) st1 →
  dev_IsTexture (calls (trace st1)) t = true →
  ∃ st2, DeleteTexture t st1 = Ret tt st2 ∧
    ctx st2 = set_lastTexture invalidTexture (ctx st) ∧
    calls (trace st2) = calls (trace st1) ++ [GlIsTexture t; GlDeleteTextures t].
Proof.
  intros Hnew Hlive.
  pose proof (NewTexture_run st width height) as Hr. cbn zeta in Hr.
  rewrite Hr in Hnew. clear Hr.
  pose proof (uint32_range (dev_GenTextures (calls (trace st)))) as Hu.
  case_decide; [done|].
  assert (Ht : t = uint32 (dev_GenTextures (calls (trace st)))) by by simplify_eq.
  rewrite <- Ht in *. clear Ht.
  assert (Hctx : lastTexture (ctx st1) = t ∧
                 set_lastTexture invalidTexture (ctx st1)
                   = set_lastTexture invalidTexture (ctx st)).
  { simplify_eq. cbn [ctx]. case_decide as Hc; [done|].
    by rewrite set_lastTexture_twice. }
  destruct Hctx as [Hbound Hctx]. clear Hnew.
  pose proof (DeleteTexture_run st1 t) as Hd. cbn zeta in Hd.
  rewrite (uint32_id t Hu) in Hd. rewrite Hlive in Hd.
  rewrite decide_True in Hd by done. rewrite Hd.
  eexists. split; [reflexivity|]. cbn [ctx trace]. split; [exact Hctx|].
  rewrite <- app_assoc. by rewrite calls_app.
Qed.

(** X17. Creating a framebuffer and deleting it again, while the device
    reports it live, does not restore the framebuffer that was bound before:
    the cached bound framebuffer ends as the invalid sentinel and the cached
    viewport as 0 by 0, whatever it was, and every other cached field is as
    it was before the creation. *)
Theorem NewFramebuffer_then_DeleteFramebuffer (st st1 : State) (texture : Texture)
    (fb : Framebuffer) :
  NewFramebuffer texture st = Ret (fb, None) st1 →
  dev_IsFramebufferEXT (calls (trace st1)) fb = true →
  ∃ st2, DeleteFramebuffer fb st1 = Ret tt st2 ∧
    ctx st2 = set_lastViewportHeight 0
                (set_lastViewportWidth 0
                   (set_lastFramebuffer invalidFramebuffer (ctx st))) ∧
    calls (trace st2) =
      calls (trace st1) ++ [GlIsFramebufferEXT fb; GlDeleteFramebuffersEXT fb].
Proof.
  intros Hnew Hlive.
  pose proof (NewFramebuffer_run st texture) as Hr. cbn zeta in Hr.
  rewrite Hr in Hnew. clear Hr.
  pose proof (uint32_range (dev_GenFramebuffersEXT (calls (trace st)))) as Hu.
  assert (Hfb : fb = uint32 (dev_GenFramebuffersEXT (calls (trace st))) ∧
                lastFramebuffer (ctx st1) = fb ∧
                set_lastFramebuffer invalidFramebuffer (ctx st1)
                  = set_lastFramebuffer invalidFramebuffer (ctx st)).
  { repeat match type of Hnew with
           | context [decide ?P] => destruct (decide P)
           end; simplify_eq; cbn [ctx]; (split; [done|]); (split; [done|]); done. }
  destruct Hfb as (Hfb & Hbound & Hctx). rewrite <- Hfb in Hu. clear Hnew Hfb.
  pose proof (DeleteFramebuffer_run st1 fb) as Hd. cbn zeta in Hd.
  rewrite (uint32_id fb Hu) in Hd. rewrite Hlive in Hd.
  rewrite decide_True in Hd by done. rewrite Hd.
  eexists. split; [reflexivity|]. cbn [ctx trace]. split; [by rewrite Hctx|].
  rewrite <- app_assoc. by rewrite calls_app.
Qed.

End RoundTrips.

(** ** Shaders *)

Section ShaderProperties.

Import Shaders.

Context {sdev : ShaderDevice}.

Lemma countShaderCalls_app (P : shaderCall → bool) (h1 h2 : list shaderCall) :
  countShaderCalls P (h1 ++ h2) = (countShaderCalls P h1 + countShaderCalls P h2)%nat.
Proof. unfold countShaderCalls. by rewrite List.filter_app, length_app. Qed.

Lemma length_store (w buf : list Byte.byte) : length (store w buf) = length buf.
Proof.
  unfold store. rewrite length_take, length_app, length_drop. lia.
Qed.

Lemma length_string_of_list_byte (l : list Byte.byte) :
  String.length (string_of_list_byte l) = length l.
Proof. induction l as [|b l IH]; [done|]. cbn. by rewrite <- IH. Qed.

(** [newShader], run. *)
Lemma newShader_run (ty : shaderType) (source : string) (h : list shaderCall) :
  let s := uint32 (dev_CreateShader h) in
  let h0 := h ++ [GlCreateShader (uint32 ty)] in
  let h1 := (h0 ++ [GlShaderSource (uint32 s) 1 (source +:+ NUL)])
            ++ [GlCompileShader s] in
  let status := int32 (dev_GetShaderiv h1 s COMPILE_STATUS) in
  let h2 := h1 ++ [GlGetShaderiv s COMPILE_STATUS] in
  let v := int32 (dev_GetShaderiv h2 (uint32 s) INFO_LOG_LENGTH) in
  let h3 := h2 ++ [GlGetShaderiv (uint32 s) INFO_LOG_LENGTH] in
  let log := store (dev_GetShaderInfoLog h3 (uint32 s) v)
                   (replicate (Z.to_nat v) Byte.x00) in
  newShader ty source h =
    if decide (s = 0) then
      Done (0, Some ("opengl: glCreateShader failed: shader type: " +:+ fmt_d ty)) h0
    else if decide (status = gl.FALSE) then
      if decide (v = 0) then
        Done (0, Some "opengl: shader compile failed: "%string) h3
      else if decide (v < 0) then
        Aborted "runtime error: makeslice: len out of range" h3
      else
        Done (0, Some ("opengl: shader compile failed: " +:+ string_of_list_byte log))
             (h3 ++ [GlGetShaderInfoLog (uint32 s) v])
    else Done (s, None) h2.
Proof.
  cbn zeta.
  unfold newShader, runOnContextThread, make, gl_CreateShader, gl_ShaderSource,
    gl_CompileShader, gl_GetShaderiv, gl_GetShaderInfoLog, issue.
  unfold mbind, SM_bind, mret, SM_ret. cbn.
  repeat (case_decide; cbn; try done).
Qed.

(** X18. [newShader] returns a nil error only together with the nonzero
    handle the device created, and a non-nil error only together with
    handle 0.  It never issues a shader delete, so a shader that fails to
    compile stays on the device.  When the device creates no shader
    (handle 0) the error names the shader type in decimal and nothing is
    uploaded or compiled. *)
Theorem newShader_outcome (ty : shaderType) (source : string) (h h' : list shaderCall)
    (sh : shader) (err : error) :
  newShader ty source h = Done (sh, err) h' →
  let s := uint32 (dev_CreateShader h) in
  (err = None → sh = s ∧ sh ≠ 0 ∧ isUint32 sh) ∧
  (err ≠ None → sh = 0) ∧
  countShaderCalls isShaderDelete h' = countShaderCalls isShaderDelete h ∧
  (s = 0 →
     err = Some ("opengl: glCreateShader failed: shader type: " +:+ fmt_d ty) ∧
     h' = h ++ [GlCreateShader (uint32 ty)]).
Proof.
  intros Hrun. cbn zeta.
  pose proof (newShader_run ty source h) as Hr. cbn zeta in Hr.
  rewrite Hr in Hrun. clear Hr.
  pose proof (uint32_range (dev_CreateShader h)) as Hu. unfold isUint32 in Hu.
  repeat match type of Hrun with
         | context [decide ?P] => destruct (decide P)
         end; simplify_eq;
    repeat split; try done; try lia;
    rewrite ?countShaderCalls_app; cbn; lia.
Qed.

(** X19. When the shader is created and its compile status is false,
    [newShader] asks for the length of the diagnostic log.  If the length is
    0 it fetches no log and the message ends after its prefix.  If the
    length is positive it fetches the log into a buffer of that many zero
    bytes, and the message is the prefix followed by the whole buffer,
    exactly that many bytes, padding and terminator included.  Either way
    the handle returned is 0, so a [deleteShader] of the returned handle is
    a device delete of 0 and not of the shader that failed. *)
Theorem newShader_compile_error (ty : shaderType) (source : string)
    (h : list shaderCall) :
  let s := uint32 (dev_CreateShader h) in
  let h1 := ((h ++ [GlCreateShader (uint32 ty)])
             ++ [GlShaderSource (uint32 s) 1 (source +:+ NUL)])
            ++ [GlCompileShader s] in
  let h2 := h1 ++ [GlGetShaderiv s COMPILE_STATUS] in
  let v := int32 (dev_GetShaderiv h2 (uint32 s) INFO_LOG_LENGTH) in
  let h3 := h2 ++ [GlGetShaderiv (uint32 s) INFO_LOG_LENGTH] in
  s ≠ 0 →
  int32 (dev_GetShaderiv h1 s COMPILE_STATUS) = gl.FALSE →
  0 <= v →
  ∃ log h',
    newShader ty source h =
      Done (0, Some ("opengl: shader compile failed: " +:+ string_of_list_byte log)) h' ∧
    length log = Z.to_nat v ∧
    String.length (string_of_list_byte log) = Z.to_nat v ∧
    (v = 0 → h' = h3) ∧
    (0 < v →
       h' = h3 ++ [GlGetShaderInfoLog (uint32 s) v] ∧
       log = store (dev_GetShaderInfoLog h3 (uint32 s) v)
                   (replicate (Z.to_nat v) Byte.x00)) ∧
    deleteShader 0 h' = Done tt (h' ++ [GlDeleteShader 0]).
Proof.
  cbn zeta. intros Hs Hstatus Hv.
  pose proof (newShader_run ty source h) as Hr. cbn zeta in Hr.
  rewrite Hr. clear Hr.
  rewrite decide_False by done. rewrite decide_True by done.
  case_decide as Hz.
  - exists [], (((((h ++ [GlCreateShader (uint32 ty)])
             ++ [GlShaderSource (uint32 (uint32 (dev_CreateShader h))) 1 (source +:+ NUL)])
            ++ [GlCompileShader (uint32 (dev_CreateShader h))])
            ++ [GlGetShaderiv (uint32 (dev_CreateShader h)) COMPILE_STATUS])
            ++ [GlGetShaderiv (uint32 (uint32 (dev_CreateShader h))) INFO_LOG_LENGTH]).
    rewrite Hz. by repeat split.
  - rewrite decide_False by lia. eexists _, _. split; [reflexivity|].
    rewrite length_string_of_list_byte, length_store, length_replicate.
    by repeat split.
Qed.

(** X20. When the shader is created, its compile status is false and the
    device reports a negative log length, [newShader] panics in allocating
    the log buffer: it returns nothing, fetches no log and deletes
    nothing. *)
Theorem newShader_negative_log_length (ty : shaderType) (source : string)
    (h : list shaderCall) :
  let s := uint32 (dev_CreateShader h) in
  let h1 := ((h ++ [GlCreateShader (uint32 ty)])
             ++ [GlShaderSource (uint32 s) 1 (source +:+ NUL)])
            ++ [GlCompileShader s] in
  let h2 := h1 ++ [GlGetShaderiv s COMPILE_STATUS] in
  let v := int32 (dev_GetShaderiv h2 (uint32 s) INFO_LOG_LENGTH) in
  s ≠ 0 →
  int32 (dev_GetShaderiv h1 s COMPILE_STATUS) = gl.FALSE →
  v < 0 →
  newShader ty source h =
    Aborted "runtime error: makeslice: len out of range"
            (h2 ++ [GlGetShaderiv (uint32 s) INFO_LOG_LENGTH]).
Proof.
  cbn zeta. intros Hs Hstatus Hv.
  pose proof (newShader_run ty source h) as Hr. cbn zeta in Hr.
  rewrite Hr. clear Hr.
  rewrite decide_False by done. rewrite decide_True by done.
  rewrite decide_False by lia. by rewrite decide_True by done.
Qed.

End ShaderProperties.

(** * Worked instances *)

(** The theorems above, applied to the concrete collaborators of
    [Scenario]. *)

Import Scenario.
#[local] Existing Instance graphics.

(** C2 on a context that blends with [Lighter]: asking for [Lighter] again
    changes nothing; asking for [SourceOver] issues one
    [glBlendFunc(ONE, ONE_MINUS_SRC_ALPHA)]. *)
Lemma BlendFunc_short_circuit_witness :
  BlendFunc Lighter (St drawing []) = Ret tt (St drawing []) ∧
  ∃ st', BlendFunc SourceOver (St drawing []) = Ret tt st' ∧
    ctx st' = set_lastCompositeMode SourceOver drawing ∧
    trace st' = [Ev (GlBlendFunc 1 0x0303) (ctx st')] ∧
    countCalls isBlendFunc (trace st') = 1%nat.
Proof.
  split.
  - apply (BlendFunc_short_circuit (St drawing []) Lighter). reflexivity.
  - apply (BlendFunc_short_circuit (St drawing []) SourceOver). discriminate.
Defined.

(** C3 on a fresh context: a device library that does not initialize stops
    [reset] at once; a healthy one is initialized, blending is enabled,
    source-over is applied and framebuffer 0 becomes the screen. *)
Lemma reset_steps_witness :
  reset (dev := uninitializable) (St bare []) =
    Ret (Some "opengl: initializing error no context") (St bare [Ev GlInit bare]) ∧
  ∃ st', reset (dev := healthy) (St bare []) = Ret None st' ∧
    calls (trace st') = [GlInit; GlEnable gl.BLEND; GlBlendFunc 1 0x0303;
                         GlGetIntegerv gl.FRAMEBUFFER_BINDING] ∧
    lastCompositeMode (ctx st') = SourceOver ∧
    screenFramebuffer (ctx st') = 0 ∧
    init (ctx st') = true.
Proof.
  split.
  - apply (reset_steps (dev := uninitializable) (St bare [])); reflexivity.
  - destruct (reset_steps (dev := healthy) (St bare [])) as [_ H].
    destruct (H (or_intror eq_refl)) as (Hrun & _ & Hmode & Hscreen & Hinit & _).
    eexists. split; [exact Hrun|]. split; [reflexivity|].
    split; [exact Hmode|]. split; [exact Hscreen|]. exact Hinit.
Defined.

(** C3 as stated fails: the initialization does not run at most once per
    context.  On a device library that fails to initialize at the first
    attempt, the first [reset] issues [gl.Init], returns the initialization
    error and leaves the context as it was; the second [reset] of the same
    context issues [gl.Init] again, which succeeds, and runs the remaining
    steps.  The context has then been initialized twice. *)
Lemma reset_initializes_again :
  let st0 := St bare [] in
  let st1 := stateOf (reset (dev := flaky) st0) in
  let st2 := stateOf (reset (dev := flaky) st1) in
  reset (dev := flaky) st0 =
    Ret (Some "opengl: initializing error no context"%string) st1 ∧
  ctx st1 = bare ∧
  countCalls isInit (trace st1) = 1%nat ∧
  reset (dev := flaky) st1 = Ret None st2 ∧
  calls (trace st2) = [GlInit; GlInit; GlEnable gl.BLEND; GlBlendFunc 1 0x0303;
                       GlGetIntegerv gl.FRAMEBUFFER_BINDING] ∧
  countCalls isInit (trace st2) = 2%nat.
Proof. cbv zeta. repeat split; vm_compute; reflexivity. Qed.

(** C4 on a device whose framebuffers are incomplete with status 36054
    ([GL_FRAMEBUFFER_INCOMPLETE_ATTACHMENT]): the error carries the status. *)
Lemma NewFramebuffer_error_fallback_witness :
  ∃ fb err st', NewFramebuffer (dev := incomplete) 1 (St bare []) = Ret (fb, err) st' ∧
    fb = 0 ∧ fb ≠ 1 ∧ err = Some "opengl: creating framebuffer failed: 36054".
Proof.
  eexists _, _, _. split; [vm_compute; reflexivity|].
  eapply (NewFramebuffer_error_fallback (dev := incomplete) (St bare []) _ 1 _ _
            [Ev GlGenFramebuffersEXT bare;
             Ev (GlBindFramebufferEXT gl.FRAMEBUFFER 1) bare;
             Ev (GlFramebufferTexture2DEXT gl.FRAMEBUFFER gl.COLOR_ATTACHMENT0
                   gl.TEXTURE_2D 1 0) (set_lastFramebuffer 1 bare)]
            [] (set_lastFramebuffer 1 bare)).
  - vm_compute; reflexivity.
  - reflexivity.
  - cbn; lia.
  - by vm_compute.
Defined.

(** The second and third tier of C4: status 0 with a pending
    [GL_INVALID_OPERATION] (1282), and status 0 with no pending error. *)
Example NewFramebuffer_second_tier :
  ∃ st', NewFramebuffer (dev := erroring) 1 (St bare []) =
    Ret (0, Some "opengl: creating framebuffer failed: (glGetError) 1282") st'.
Proof. eexists. vm_compute. reflexivity. Qed.

Example NewFramebuffer_third_tier :
  ∃ st', NewFramebuffer (dev := silent) 1 (St bare []) =
    Ret (0, Some "opengl: creating framebuffer failed: unknown error") st'.
Proof. eexists. vm_compute. reflexivity. Qed.

(** C5 on a context with framebuffer 2 bound and a 320x240 viewport:
    deleting framebuffer 2 resets the three entries before the device
    delete. *)
Lemma DeleteFramebuffer_reconciles_viewport_witness :
  ∃ c', DeleteFramebuffer (dev := healthy) 2 (St drawing []) =
          Ret tt (St c' [Ev (GlIsFramebufferEXT 2) drawing;
                         Ev (GlDeleteFramebuffersEXT 2) c']) ∧
    lastFramebuffer c' = invalidFramebuffer ∧
    lastViewportWidth c' = 0 ∧ lastViewportHeight c' = 0 ∧
    lastTexture c' = 4.
Proof.
  destruct (DeleteFramebuffer_reconciles_viewport (dev := healthy) (St drawing []) 2
              eq_refl) as (c' & Hrun & Hbound & _).
  exists c'. split; [exact Hrun|].
  destruct (Hbound eq_refl) as (Hf & Hw & Hh & Ht & _).
  repeat split; assumption.
Defined.

(** C6 on a device for which no handle is live. *)
Lemma delete_dead_handle_noop_witness :
  DeleteTexture (dev := dead) 4 (St drawing []) =
    Ret tt (St drawing [Ev (GlIsTexture 4) drawing]) ∧
  DeleteFramebuffer (dev := dead) 2 (St drawing []) =
    Ret tt (St drawing [Ev (GlIsFramebufferEXT 2) drawing]) ∧
  deleteProgram (dev := dead) 7 (St drawing []) =
    Ret tt (St drawing [Ev (GlIsProgram 7) drawing]).
Proof.
  destruct (delete_dead_handle_noop (dev := dead) (St drawing []) 4) as (Ht & _ & _).
  destruct (delete_dead_handle_noop (dev := dead) (St drawing []) 2) as (_ & Hf & _).
  destruct (delete_dead_handle_noop (dev := dead) (St drawing []) 7) as (_ & _ & Hp).
  destruct (Ht eq_refl) as ([c1 t1] & -> & Hc1 & Ht1 & _).
  destruct (Hf eq_refl) as ([c2 t2] & -> & Hc2 & Ht2 & _).
  destruct (Hp eq_refl) as ([c3 t3] & -> & Hc3 & Ht3 & _).
  cbn [ctx trace] in *. subst. repeat split.
Defined.

(** C7 on a device that fails to link. *)
Lemma newProgram_link_error_witness :
  ∃ pr err st', newProgram (dev := unlinkable) [2; 3] (St bare []) = Ret (pr, err) st' ∧
    pr = 0 ∧ err = Some "opengl: program error" ∧
    calls (trace st') = [GlCreateProgram; GlAttachShader 1 2; GlAttachShader 1 3;
                         GlLinkProgram 1; GlGetProgramiv 1 gl.LINK_STATUS].
Proof.
  eexists _, _, _. split; [vm_compute; reflexivity|].
  eapply (newProgram_link_error (dev := unlinkable) (St bare []) _ [2; 3] _ 1 _
            [Ev GlCreateProgram bare; Ev (GlAttachShader 1 2) bare;
             Ev (GlAttachShader 1 3) bare; Ev (GlLinkProgram 1) bare] bare).
  - vm_compute; reflexivity.
  - reflexivity.
  - by vm_compute.
Defined.

(** C8 on a device that resolves every name to 3, and on one that resolves
    none. *)
Lemma location_lookup_fatal_witness :
  (∃ st', getUniformLocationImpl (dev := healthy) 7 "mvp" (St bare []) = Ret 3 st') ∧
  (∃ st', getAttribLocationImpl (dev := healthy) 7 "vertex" (St bare []) = Ret 3 st') ∧
  (∃ st', getUniformLocationImpl (dev := nameless) 7 "mvp" (St bare []) =
            Panic "opengl: invalid uniform location: mvp" st') ∧
  (∃ st', getAttribLocationImpl (dev := nameless) 7 "vertex" (St bare []) =
            Panic "opengl: invalid attrib location: vertex" st').
Proof.
  destruct (location_lookup_fatal (dev := healthy) (St bare []) 7 "mvp")
    as ((_ & _ & Hu & _) & _).
  destruct (location_lookup_fatal (dev := healthy) (St bare []) 7 "vertex")
    as (_ & (_ & _ & Ha & _)).
  destruct (location_lookup_fatal (dev := nameless) (St bare []) 7 "mvp")
    as ((_ & Hup & _ & _) & _).
  destruct (location_lookup_fatal (dev := nameless) (St bare []) 7 "vertex")
    as (_ & (_ & Hap & _ & _)).
  split; [eexists; apply Hu; by vm_compute|].
  split; [eexists; apply Ha; by vm_compute|].
  split; [eexists; apply Hup; by vm_compute|].
  eexists; apply Hap; by vm_compute.
Defined.

(** C9 on a device whose generators return the zero handle. *)
Lemma creation_failure_returns_zero_witness :
  (∃ t e st', NewTexture (dev := exhausted) 64 64 (St bare []) = Ret (t, Some e) st' ∧
     t = 0 ∧ t = invalidTexture) ∧
  (∃ f e st', NewFramebuffer (dev := incomplete) 1 (St bare []) = Ret (f, Some e) st' ∧
     f = 0 ∧ f ≠ invalidFramebuffer).
Proof.
  destruct (creation_failure_returns_zero (dev := exhausted) (St bare []) 64 64 1)
    as ((t & e & st' & Hrun & Hzero) & _).
  destruct (creation_failure_returns_zero (dev := incomplete) (St bare []) 64 64 1)
    as (_ & (f & e' & st'' & Hrun' & Hzero') & _).
  split.
  - assert (He : e = Some "opengl: creating texture failed").
    { vm_compute in Hrun. by simplify_eq. }
    subst e. eexists t, _, st'. split; [exact Hrun|]. by apply Hzero.
  - assert (He : e' = Some "opengl: creating framebuffer failed: 36054").
    { vm_compute in Hrun'. by simplify_eq. }
    subst e'. eexists f, _, st''. split; [exact Hrun'|]. by apply Hzero'.
Defined.

(** C10 on a device that resolves every name to 3: a 2-vector is handed to
    [glUniform2fv]; a 3-element slice and the empty slice panic with "not
    reached". *)
Lemma uniformFloats_by_length_witness :
  (∃ st', uniformFloats (dev := healthy) 7 "mvp" [1; 2] (St bare []) = Ret tt st' ∧
     calls (trace st') = [GlGetUniformLocation 7 ("mvp" +:+ NUL); GlUniform2fv 3 1 [1; 2]]) ∧
  (∃ st', uniformFloats (dev := healthy) 7 "mvp" [1; 2; 3] (St bare []) =
            Panic "not reached" st') ∧
  (∃ st', uniformFloats (dev := healthy) 7 "mvp" [] (St bare []) =
            Panic "not reached" st').
Proof.
  assert (Hl : ∃ s, GetUniformLocation (dev := healthy) 7 "mvp" (St bare []) = Ret 3 s ∧
                    calls (trace s) = [GlGetUniformLocation 7 ("mvp" +:+ NUL)]).
  { eexists. split; vm_compute; reflexivity. }
  destruct Hl as (s & Hl & Hs).
  destruct (uniformFloats_by_length (dev := healthy) (St bare []) 7 "mvp" [1; 2])
    as (_ & H2 & _).
  destruct (uniformFloats_by_length (dev := healthy) (St bare []) 7 "mvp" [1; 2; 3])
    as (_ & H3 & _).
  destruct (uniformFloats_by_length (dev := healthy) (St bare []) 7 "mvp" [])
    as (_ & H0 & _).
  split; [|split].
  - eexists. split; [exact (H2 _ _ Hl)|]. cbn [trace]. rewrite calls_app, Hs. reflexivity.
  - eexists. exact (H3 _ _ Hl).
  - eexists. exact (H0 _ _ Hl).
Defined.

(** * Where the code departs from the specification *)

(** C1 as stated fails.  On a device that hands out program id 7 again:
    link a program (id 7), resolve its uniform [mvp] (location 3, now
    cached), delete the program (it is live, the device delete is issued),
    and link another program, which gets id 7 again.  After the deletion
    the entry keyed to program 7 is still in the Location Cache; the device
    places [mvp] of the new program at location 5, and the lookup returns
    the cached 3 without asking the device (it leaves the state as it
    is). *)
Lemma deleteProgram_stale_location :
  let st0 := St bare [] in
  let st1 := stateOf (newProgram (dev := reusing) [] st0) in
  let st2 := stateOf (GetUniformLocation (dev := reusing) 7 "mvp" st1) in
  let st3 := stateOf (deleteProgram (dev := reusing) 7 st2) in
  let st4 := stateOf (newProgram (dev := reusing) [] st3) in
  newProgram (dev := reusing) [] st0 = Ret (7, None) st1 ∧
  GetUniformLocation (dev := reusing) 7 "mvp" st1 = Ret 3 st2 ∧
  deleteProgram (dev := reusing) 7 st2 = Ret tt st3 ∧
  calls (trace st3) = calls (trace st2) ++ [GlIsProgram 7; GlDeleteProgram 7] ∧
  uniformLocationCache (locationCache (ctx st3)) !! (getProgramID 7, "mvp"%string)
    = Some 3 ∧
  newProgram (dev := reusing) [] st3 = Ret (7, None) st4 ∧
  int32 (dev_GetUniformLocation (Device := reusing) (calls (trace st4)) 7
           ("mvp" +:+ NUL)) = 5 ∧
  GetUniformLocation (dev := reusing) 7 "mvp" st4 = Ret 3 st4.
Proof. cbv zeta. repeat split; vm_compute; reflexivity. Qed.

(** C7 as stated fails.  On a device that fails to link and holds a
    diagnostic log for the program, the error [newProgram] returns is the
    fixed message, in which the log does not occur. *)
Lemma newProgram_error_omits_log :
  ∃ st' msg,
    newProgram (dev := unlinkable) [2; 3] (St bare []) = Ret (0, Some msg) st' ∧
    dev_GetProgramInfoLog (Device := unlinkable) (calls (trace st')) 1 =
      "error: varying vertex_out_tex_coord not written by vertex shader"%string ∧
    msg = "opengl: program error"%string ∧
    includes msg "program" = true ∧
    includes msg (dev_GetProgramInfoLog (Device := unlinkable) (calls (trace st')) 1)
      = false.
Proof.
  eexists _, _.
  split; [vm_compute; reflexivity|].
  split; [reflexivity|].
  split; [reflexivity|].
  split; vm_compute; reflexivity.
Qed.

(** C10 as stated fails.  With a name the device does not resolve, the
    empty slice and a 3-element slice make [uniformFloats] panic with the
    lookup's message, not with "not reached"; and a 2-element slice makes it
    panic too, without any [glUniform2fv]. *)
Lemma uniformFloats_lookup_panic :
  ∃ st',
    uniformFloats (dev := nameless) 7 "mvp" [] (St bare []) =
      Panic "opengl: invalid uniform location: mvp" st' ∧
    uniformFloats (dev := nameless) 7 "mvp" [1; 2; 3] (St bare []) =
      Panic "opengl: invalid uniform location: mvp" st' ∧
    uniformFloats (dev := nameless) 7 "mvp" [1; 2] (St bare []) =
      Panic "opengl: invalid uniform location: mvp" st' ∧
    calls (trace st') = [GlGetUniformLocation 7 ("mvp" +:+ NUL)] ∧
    ¬ (∃ s, uniformFloats (dev := nameless) 7 "mvp" [] (St bare []) =
              Panic "not reached" s).
Proof.
  eexists.
  split; [vm_compute; reflexivity|].
  split; [vm_compute; reflexivity|].
  split; [vm_compute; reflexivity|].
  split; [vm_compute; reflexivity|].
  intros (s & Hs). vm_compute in Hs. discriminate Hs.
Qed.

(** ** Further properties, on the scenarios *)

(** X3 on a context with texture 4 bound: deleting texture 4 invalidates the
    cached texture and leaves framebuffer 2 cached. *)
Lemma DeleteTexture_invalidates_cache_witness :
  ∃ c', DeleteTexture (dev := healthy) 4 (St drawing []) =
          Ret tt (St c' [Ev (GlIsTexture 4) drawing; Ev (GlDeleteTextures 4) c']) ∧
    lastTexture c' = invalidTexture ∧ lastFramebuffer c' = 2.
Proof.
  destruct (DeleteTexture_invalidates_cache (dev := healthy) (St drawing []) 4 eq_refl)
    as (c' & Hrun & Hbound & _ & Hf & _).
  exists c'. split; [exact Hrun|]. split; [|exact Hf].
  rewrite (Hbound eq_refl). reflexivity.
Defined.

(** X5 on a healthy device: framebuffer 1 is created and cached. *)
Lemma NewFramebuffer_success_witness :
  let st' := stateOf (NewFramebuffer (dev := healthy) 1 (St bare [])) in
  NewFramebuffer (dev := healthy) 1 (St bare []) = Ret (1, None) st' ∧
  ctx st' = set_lastFramebuffer 1 bare.
Proof.
  intros st'.
  assert (Hrun : NewFramebuffer (dev := healthy) 1 (St bare []) = Ret (1, None) st')
    by (vm_compute; reflexivity).
  split; [exact Hrun|].
  destruct (NewFramebuffer_success (dev := healthy) (St bare []) st' 1 1 Hrun)
    as (_ & _ & _ & Hctx & _).
  exact Hctx.
Defined.

(** X6 on a device whose framebuffers are incomplete: handle 0 is returned
    while framebuffer 1 stays allocated and cached. *)
Lemma NewFramebuffer_no_cleanup_witness :
  let st' := stateOf (NewFramebuffer (dev := incomplete) 1 (St bare [])) in
  countCalls isDelete (trace st') = 0%nat ∧ lastFramebuffer (ctx st') = 1.
Proof.
  intros st'.
  assert (Hrun : NewFramebuffer (dev := incomplete) 1 (St bare []) =
                 Ret (0, Some "opengl: creating framebuffer failed: 36054"%string) st')
    by (vm_compute; reflexivity).
  destruct (NewFramebuffer_no_cleanup (dev := incomplete) (St bare []) st' 1 0 _ Hrun)
    as (Hcount & Hleak).
  split; [exact Hcount|].
  destruct Hleak as [_ Hl]; [discriminate|by vm_compute|exact Hl].
Defined.

(** X7 on a device that fails to link two shaders. *)
Lemma newProgram_outcome_witness :
  let st' := stateOf (newProgram (dev := unlinkable) [2; 3] (St drawing [])) in
  ctx st' = drawing ∧ countCalls isDelete (trace st') = 0%nat.
Proof.
  intros st'.
  assert (Hrun : newProgram (dev := unlinkable) [2; 3] (St drawing []) =
                 Ret (0, Some "opengl: program error"%string) st')
    by (vm_compute; reflexivity).
  destruct (newProgram_outcome (dev := unlinkable) (St drawing []) st' [2; 3] 0 _ Hrun)
    as (_ & _ & Hctx & Hcount & _).
  split; [exact Hctx|exact Hcount].
Defined.

(** X8 on a device that reports framebuffer 3000000000 as bound: the
    [int32] variable holds a negative number and the screen framebuffer
    recorded is 3000000000. *)
Lemma reset_records_device_binding_witness :
  let dev := scripted None 1 true 3000000000 gl.FRAMEBUFFER_COMPLETE 0 1 3 EmptyString in
  let st' := stateOf (reset (dev := dev) (St bare [])) in
  int32 3000000000 = -1294967296 ∧ screenFramebuffer (ctx st') = 3000000000.
Proof.
  intros dev st'. split; [reflexivity|].
  assert (Hrun : reset (dev := dev) (St bare []) = Ret None st')
    by (vm_compute; reflexivity).
  pose (c1 := sentinels (set_init true bare)).
  pose (c2 := set_lastCompositeMode SourceOver c1).
  destruct (reset_records_device_binding (dev := dev) (St bare []) st'
              [Ev GlInit bare; Ev (GlEnable gl.BLEND) c1; sourceOverCall c2] c2 Hrun)
    as [_ Hs]; [vm_compute; reflexivity|].
  apply Hs. unfold isUint32. cbn. lia.
Defined.

(** X9 on a fresh context and a healthy device. *)
Lemma reset_applies_source_over_witness :
  let st' := stateOf (reset (dev := healthy) (St bare [])) in
  lastCompositeMode (ctx st') = SourceOver ∧
  deviceBlend (calls (trace st')) = Some (1, 0x0303) ∧
  BlendFunc SourceOver st' = Ret tt st'.
Proof.
  intros st'.
  assert (Hrun : reset (dev := healthy) (St bare []) = Ret None st')
    by (vm_compute; reflexivity).
  destruct (reset_applies_source_over (dev := healthy) (St bare []) st' Hrun)
    as (Hm & Hb & Hskip).
  split; [exact Hm|]. split; [|exact Hskip]. apply Hb. discriminate.
Defined.

(** X10 on an initialized context: two resets with a texture in between
    issue no [gl.Init]. *)
Lemma init_is_permanent_witness :
  ∃ st', performAll (dev := healthy) [CallReset; CallNewTexture 64 64; CallReset]
           (St drawing []) = Ret tt st' ∧
    init (ctx st') = true ∧
    countCalls isInit (trace st') = 0%nat.
Proof.
  apply (init_is_permanent (dev := healthy)
           [CallReset; CallNewTexture 64 64; CallReset] (St drawing [])).
  reflexivity.
Defined.

(** X11 on a context whose screen is framebuffer 0: deleting framebuffer 0
    leaves it recorded as the screen. *)
Lemma only_reset_rewrites_screen_witness :
  ∃ st', performAll (dev := healthy)
           [CallDeleteFramebuffer 0; CallNewTexture 64 64; CallDeleteProgram 7]
           (St drawing []) = Ret tt st' ∧
    screenFramebuffer (ctx st') = 0 ∧
    locationCache (ctx st') = locationCache drawing ∧
    init (ctx st') = true.
Proof.
  apply (only_reset_rewrites_screen (dev := healthy)
           [CallDeleteFramebuffer 0; CallNewTexture 64 64; CallDeleteProgram 7]
           (St drawing [])).
  reflexivity.
Defined.

(** X12 after a reset, a [Lighter] blend, a second reset and a texture:
    asking for [Lighter] leaves the device with (ONE, ONE). *)
Lemma blend_cache_sound_witness :
  ∃ st' st'',
    performAll (dev := healthy)
      [CallBlendFunc (G := graphics) Lighter; CallReset; CallNewTexture 64 64]
      (stateOf (reset (dev := healthy) (St bare []))) = Ret tt st' ∧
    blendCoherent st' ∧
    BlendFunc Lighter st' = Ret tt st'' ∧
    deviceBlend (calls (trace st'')) = Some (1, 1).
Proof.
  apply (blend_cache_sound (dev := healthy) (St bare []) _
           [CallBlendFunc (G := graphics) Lighter; CallReset; CallNewTexture 64 64] Lighter).
  - vm_compute; reflexivity.
  - discriminate.
Defined.

(** X13 after a reset, a new texture, its deletion and a bind of
    texture 5: binding texture 1 leaves texture 1 bound. *)
Lemma texture_cache_sound_witness :
  ∃ st' st'',
    performAll (dev := healthy)
      [CallNewTexture 64 64; CallDeleteTexture 1; CallBindTexture 5]
      (stateOf (reset (dev := healthy) (St bare []))) = Ret tt st' ∧
    textureCoherent st' ∧
    BindTexture 1 st' = Ret tt st'' ∧
    deviceTexture (calls (trace st'')) = Some 1.
Proof.
  apply (texture_cache_sound (dev := healthy) (St bare []) _
           [CallNewTexture 64 64; CallDeleteTexture 1; CallBindTexture 5] 1).
  - vm_compute; reflexivity.
  - repeat constructor; unfold isUint32; lia.
  - unfold isUint32; lia.
  - discriminate.
Defined.

(** X14 after a reset, a new framebuffer, its deletion and a bind of the
    screen: binding framebuffer 1 leaves framebuffer 1 bound. *)
Lemma framebuffer_cache_sound_witness :
  ∃ st' st'',
    performAll (dev := healthy)
      [CallNewFramebuffer 4; CallDeleteFramebuffer 1; CallBindScreenFramebuffer]
      (stateOf (reset (dev := healthy) (St bare []))) = Ret tt st' ∧
    framebufferCoherent st' ∧
    bindFramebuffer 1 st' = Ret tt st'' ∧
    deviceFramebuffer (calls (trace st'')) = Some 1.
Proof.
  apply (framebuffer_cache_sound (dev := healthy) (St bare []) _
           [CallNewFramebuffer 4; CallDeleteFramebuffer 1; CallBindScreenFramebuffer] 1).
  - vm_compute; reflexivity.
  - repeat constructor; unfold isUint32; lia.
  - unfold isUint32; lia.
  - discriminate.
Defined.

(** X16 on a context with texture 4 bound: after creating texture 1 and
    deleting it, texture 4 is not the cached texture any more. *)
Lemma NewTexture_then_DeleteTexture_witness :
  let st1 := stateOf (NewTexture (dev := healthy) 64 64 (St drawing [])) in
  ∃ st2, DeleteTexture (dev := healthy) 1 st1 = Ret tt st2 ∧
    ctx st2 = set_lastTexture invalidTexture drawing ∧
    calls (trace st2) = calls (trace st1) ++ [GlIsTexture 1; GlDeleteTextures 1].
Proof.
  intros st1.
  apply (NewTexture_then_DeleteTexture (dev := healthy) (St drawing []) st1 64 64 1).
  - vm_compute; reflexivity.
  - reflexivity.
Defined.

(** X17 on a context with framebuffer 2 bound and a 320x240 viewport: after
    creating framebuffer 1 and deleting it, the viewport is 0 by 0. *)
Lemma NewFramebuffer_then_DeleteFramebuffer_witness :
  let st1 := stateOf (NewFramebuffer (dev := healthy) 4 (St drawing [])) in
  ∃ st2, DeleteFramebuffer (dev := healthy) 1 st1 = Ret tt st2 ∧
    ctx st2 = set_lastViewportHeight 0
                (set_lastViewportWidth 0
                   (set_lastFramebuffer invalidFramebuffer drawing)) ∧
    calls (trace st2) =
      calls (trace st1) ++ [GlIsFramebufferEXT 1; GlDeleteFramebuffersEXT 1].
Proof.
  intros st1.
  apply (NewFramebuffer_then_DeleteFramebuffer (dev := healthy) (St drawing []) st1 4 1).
  - vm_compute; reflexivity.
  - reflexivity.
Defined.

(** X18 on a device that creates no shader of type [gl.VERTEX_SHADER]. *)
Lemma newShader_outcome_witness :
  let h' := Shaders.historyOf
              (Shaders.newShader (sdev := Shaders.refusing) 35633 "void main(){}" []) in
  h' = [GlCreateShader 35633] ∧ countShaderCalls isShaderDelete h' = 0%nat.
Proof.
  intros h'.
  assert (Hrun : Shaders.newShader (sdev := Shaders.refusing) 35633 "void main(){}" [] =
                 Shaders.Done
                   (0, Some "opengl: glCreateShader failed: shader type: 35633"%string) h')
    by (vm_compute; reflexivity).
  destruct (newShader_outcome (sdev := Shaders.refusing) _ _ _ _ _ _ Hrun)
    as (_ & _ & Hcount & Hzero).
  split; [|exact Hcount].
  destruct Hzero as [_ Hh]; [by vm_compute|exact Hh].
Defined.

(** X19 on a device that rejects the shader with the log ["bad"] and
    reports its length as 4: the message carries the terminator too. *)
Lemma newShader_compile_error_witness :
  ∃ h', Shaders.newShader (sdev := Shaders.rejecting) 35633 "void main(){}" [] =
          Shaders.Done (0, Some ("opengl: shader compile failed: bad" +:+ NUL)) h'.
Proof.
  destruct (newShader_compile_error (sdev := Shaders.rejecting) 35633 "void main(){}" [])
    as (log & h' & Hrun & _ & _ & _ & Hpos & _); [by vm_compute..|].
  destruct Hpos as [_ ->]; [by vm_compute|].
  exists h'. exact Hrun.
Defined.

(** X20 on a device that rejects the shader and reports the log length
    as -1. *)
Lemma newShader_negative_log_length_witness :
  Shaders.newShader (sdev := Shaders.broken) 35633 "void main(){}" [] =
    Shaders.Aborted "runtime error: makeslice: len out of range"
      [GlCreateShader 35633; GlShaderSource 7 1 ("void main(){}" +:+ NUL);
       GlCompileShader 7; GlGetShaderiv 7 Shaders.COMPILE_STATUS;
       GlGetShaderiv 7 Shaders.INFO_LOG_LENGTH].
Proof.
  apply (newShader_negative_log_length (sdev := Shaders.broken) 35633
           "void main(){}" []); by vm_compute.
Defined.
